(** * Crypto arbitrage bot: detector, estimator, loan sizing, configuration

    A shallow embedding of the decision logic of the repository:
    - [monitorbot.py]  ([ArbitrageBot]: price collection, opportunity detection,
      the monitoring cycle and the configuration setters),
    - [slack_bot.py]   ([SlackBot.update_threshold], the validated setter),
    - [src/flashloan_bot.py] ([FlashLoanBot]: net profit, loan sizing, gas cost).

    Python [float]s are Rocq's primitive binary64 floats, so comparisons with
    NaN and infinities behave as in the interpreter.  Python [Decimal]s are
    coefficient/exponent pairs, their arithmetic rounded as the default
    context does.  Methods that read or change the bot, the
    configuration file, the clock or the log run in a state-and-exception monad. *)

From Stdlib Require Import ZArith Bool Lia Floats String Ascii Sorted Permutation.
From stdpp Require Import gmap strings list.

Open Scope Z_scope.

(** ** Python exceptions and the state-and-exception monad *)

Module Py.

(** The subclasses of [Exception] the modelled code can meet.  Every one of
    them is caught by an [except Exception] clause. *)
Inductive exn : Type :=
| TypeError
| KeyError
| AttributeError
| ValueError
| InvalidOperation
| Overflow
| CollaboratorError (msg : string).

Inductive result (A : Type) : Type :=
| Ok (a : A)
| Raise (e : exn).
Arguments Ok {A} a.
Arguments Raise {A} e.

(** A computation over a mutable state [S]: it ends with a value or with a
    raised exception, and in both cases with the state reached so far. *)
Definition M (S A : Type) : Type := S -> result A * S.

#[global] Instance M_ret {S} : MRet (M S) := fun A a s => (Ok a, s).

#[global] Instance M_bind {S} : MBind (M S) := fun A B k c s =>
  match c s with
  | (Ok a, s') => k a s'
  | (Raise e, s') => (Raise e, s')
  end.

Definition raise {S A} (e : exn) : M S A := fun s => (Raise e, s).

Definition gets {S A} (f : S -> A) : M S A := fun s => (Ok (f s), s).

Definition modify {S} (f : S -> S) : M S unit := fun s => (Ok tt, f s).

Definition lift {S A} (r : result A) : M S A := fun s => (r, s).

(** [try: body  except Exception as e: handler e] *)
Definition try_except {S A} (body : M S A) (handler : exn -> M S A) : M S A :=
  fun s => match body s with
           | (Ok a, s') => (Ok a, s')
           | (Raise e, s') => handler e s'
           end.

(** [for x in xs: acc = body x acc], the loop-carried local threaded along. *)
Fixpoint for_fold {S X Acc} (xs : list X) (acc : Acc)
    (body : X -> Acc -> M S Acc) : M S Acc :=
  match xs with
  | [] => mret acc
  | x :: rest => acc' ← body x acc; for_fold rest acc' body
  end.

(** [for x in xs: body x] *)
Fixpoint for_each {S X} (xs : list X) (body : X -> M S unit) : M S unit :=
  match xs with
  | [] => mret tt
  | x :: rest => body x;; for_each rest body
  end.

(** A list comprehension [[f x for x in xs]] whose element expression may
    raise: elements are built left to right and the first exception ends it. *)
Fixpoint comprehension {X Y} (f : X -> result Y) (xs : list X) : result (list Y) :=
  match xs with
  | [] => Ok []
  | x :: rest =>
      match f x with
      | Raise e => Raise e
      | Ok y => match comprehension f rest with
                | Raise e => Raise e
                | Ok ys => Ok (y :: ys)
                end
      end
  end.

End Py.
Import Py.

(** ** Python floats *)

Module PyFloat.

(** [x > y] and [x >= y]; PrimFloat gives [<?] and [<=?]. *)
Definition fgt (x y : float) : bool := (y <? x)%float.
Definition fge (x y : float) : bool := (y <=? x)%float.

(** Truth value of a float: every float but the two zeros. *)
Definition truthy (x : float) : bool := negb (x =? 0)%float.

(** A rank for the IEEE order: NaN has none; the others are ordered
    lexicographically by the triple. *)
Definition sf_rank (f : spec_float) : option (Z * Z * Z) :=
  match f with
  | S754_nan => None
  | S754_zero _ => Some (0, 0, 0)
  | S754_infinity true => Some (-2, 0, 0)
  | S754_infinity false => Some (2, 0, 0)
  | S754_finite false m e => Some (1, e, Zpos m)
  | S754_finite true m e => Some (-1, - e, Zneg m)
  end.

Definition rank (x : float) : option (Z * Z * Z) := sf_rank (Prim2SF x).

Definition cmp3 (a b : Z * Z * Z) : comparison :=
  match a, b with
  | (a1, a2, a3), (b1, b2, b3) =>
      match a1 ?= b1 with
      | Eq => match a2 ?= b2 with Eq => a3 ?= b3 | c => c end
      | c => c
      end
  end.

Definition lt3 (a b : Z * Z * Z) : Prop :=
  match a, b with
  | (a1, a2, a3), (b1, b2, b3) =>
      a1 < b1 \/ (a1 = b1 /\ (a2 < b2 \/ (a2 = b2 /\ a3 < b3)))
  end.

(** A float that is not NaN. *)
Definition ordered (x : float) : Prop := rank x <> None.

(** [sorted(xs, key=key, reverse=True)].  CPython reverses the list, sorts it
    stably in ascending key order comparing keys with [<] only, and reverses
    the result.  The stable ascending sort is written as an insertion sort:
    on keys without NaN every stable sort returns the same list. *)
Fixpoint insert_asc {A} (key : A -> float) (x : A) (l : list A) : list A :=
  match l with
  | [] => [x]
  | y :: l' =>
      if (key y <? key x)%float then y :: insert_asc key x l' else x :: y :: l'
  end.

Definition sort_asc {A} (key : A -> float) (l : list A) : list A :=
  fold_right (insert_asc key) [] l.

Definition sorted_reverse {A} (key : A -> float) (l : list A) : list A :=
  rev (sort_asc key (rev l)).

End PyFloat.
Import PyFloat.

(** ** Python dicts with string keys, in insertion order *)

Module PyDict.

Definition dict (V : Type) : Type := list (string * V).

Fixpoint dict_get {V} (d : dict V) (k : string) : option V :=
  match d with
  | [] => None
  | (k', v) :: rest => if String.eqb k' k then Some v else dict_get rest k
  end.

(** [d[k] = v]: an existing key keeps its position, a new key goes last. *)
Fixpoint dict_set {V} (d : dict V) (k : string) (v : V) : dict V :=
  match d with
  | [] => [(k, v)]
  | (k', v') :: rest =>
      if String.eqb k' k then (k', v) :: rest else (k', v') :: dict_set rest k v
  end.

Definition dict_keys {V} (d : dict V) : list string := map fst d.

(** [d[k]] in an expression: [KeyError] when the key is missing. *)
Definition getitem {S V} (d : dict V) (k : string) : M S V :=
  match dict_get d k with
  | Some v => mret v
  | None => raise KeyError
  end.

End PyDict.
Import PyDict.

(** ** Python Decimal: finite values [coef * 10 ^ expo]

    Construction from a string and comparison are exact; multiplication and
    subtraction give the exact result rounded by the default context. *)

Module PyDecimal.
Import Py.

(** A finite [Decimal]: the number [coef * 10 ^ expo].  The sign is the sign
    of the coefficient; the sign of a zero is not kept (it shows in [str]
    only). *)
Record decimal : Type := Dec { coef : Z; expo : Z }.

(** The coefficient of [a] rescaled to the exponent [e <= expo a]. *)
Definition align (a : decimal) (e : Z) : Z := coef a * 10 ^ (expo a - e).

(** The default context: [prec=28], [rounding=ROUND_HALF_EVEN],
    [Emin=-999999], [Emax=999999], [clamp=0]; of the signals only
    [InvalidOperation], [DivisionByZero] and [Overflow] are trapped. *)
Definition prec : Z := 28.
Definition Emax : Z := 999999.
Definition Emin : Z := -999999.
Definition Etiny : Z := Emin - prec + 1.
Definition Etop : Z := Emax - prec + 1.

(** [len(str(n))] for [n > 0]. *)
Fixpoint ndigits_fuel (fuel : nat) (n : Z) : Z :=
  match fuel with
  | O => 1
  | S fuel' => if n <? 10 then 1 else 1 + ndigits_fuel fuel' (n / 10)
  end.

Definition ndigits (n : Z) : Z := ndigits_fuel (Z.to_nat (Z.log2 n)) n.

(** [c] without its last [k] digits, rounded half to even. *)
Definition round_half_even (c k : Z) : Z :=
  let p := 10 ^ k in
  let q := Z.abs c / p in
  let r := Z.abs c mod p in
  Z.sgn c * (if (p <? 2 * r) || ((2 * r =? p) && Z.odd q) then q + 1 else q).

(** [Decimal._fix]: what every arithmetic operation does to its exact
    result.  A zero keeps its exponent within [Etiny, Emax]; a result whose
    adjusted exponent is above [Emax] raises [Overflow]; a coefficient of
    more than [prec] digits, or an exponent below [Etiny], is rounded (the
    signals Rounded, Inexact, Subnormal, Underflow and Clamped are not
    trapped). *)
Definition fix_ (d : decimal) : result decimal :=
  if coef d =? 0 then Ok (Dec 0 (Z.min (Z.max (expo d) Etiny) Emax))
  else
    let exp_min := ndigits (Z.abs (coef d)) + expo d - prec in
    if Etop <? exp_min then Raise Overflow
    else
      let exp_min := Z.max exp_min Etiny in
      if expo d <? exp_min then
        let digits := ndigits (Z.abs (coef d)) + expo d - exp_min in
        let c := if digits <? 0 then 0
                 else round_half_even (coef d) (exp_min - expo d) in
        if prec <? ndigits (Z.abs c) then
          if Etop <? exp_min + 1 then Raise Overflow
          else Ok (Dec (c / 10) (exp_min + 1))
        else Ok (Dec c exp_min)
      else Ok d.

(** The exact product and the exact difference. *)
Definition exact_mul (a b : decimal) : decimal :=
  {| coef := coef a * coef b; expo := expo a + expo b |}.

Definition exact_sub (a b : decimal) : decimal :=
  let e := Z.min (expo a) (expo b) in
  {| coef := align a e - align b e; expo := e |}.

(** [a * b] and [a - b]: the exact result, fixed by the context. *)
Definition dec_mul (a b : decimal) : result decimal := fix_ (exact_mul a b).

Definition dec_sub (a b : decimal) : result decimal := fix_ (exact_sub a b).

Definition dec_compare (a b : decimal) : comparison :=
  let e := Z.min (expo a) (expo b) in align a e ?= align b e.

Definition dec_ltb (a b : decimal) : bool :=
  match dec_compare a b with Lt => true | _ => false end.

Definition dec_leb (a b : decimal) : bool :=
  match dec_compare a b with Gt => false | _ => true end.

Definition dec_eqb (a b : decimal) : bool :=
  match dec_compare a b with Eq => true | _ => false end.

(** [min(a, b)]: the first argument unless the second is smaller. *)
Definition dec_min (a b : decimal) : decimal := if dec_ltb b a then b else a.

End PyDecimal.
Import PyDecimal.

(** ** monitorbot.py *)

Module monitorbot.

(** [TradingPair.amount] is the float [1.0] by default; a third component of a
    pair string lands in it as a string. *)
Inductive amount_val : Type :=
| AmountFloat (f : float)
| AmountStr (s : string).

Record TradingPair : Type := mkPair
  { base : string; quote : string; amount : amount_val }.

(** [TradingPair.__str__] *)
Definition TradingPair_str (p : TradingPair) : string :=
  String.append (base p) (String.append "/" (quote p)).

(** The constructor applied to the unpacked list [args]: [base] and [quote]
    are required, [amount] is optional. *)
Definition TradingPair_init (args : list string) : result TradingPair :=
  match args with
  | [b; q] => Ok (mkPair b q (AmountFloat 1))
  | [b; q; a] => Ok (mkPair b q (AmountStr a))
  | _ => Raise TypeError
  end.

(** [s.split(sep)] for a one-character separator. *)
Fixpoint split (sep : ascii) (s : string) : list string :=
  match s with
  | EmptyString => [EmptyString]
  | String c rest =>
      if Ascii.eqb c sep then EmptyString :: split sep rest
      else match split sep rest with
           | hd :: tl => String c hd :: tl
           | [] => [String c EmptyString]
           end
  end.

(** [sep in s] *)
Fixpoint contains (sep : ascii) (s : string) : bool :=
  match s with
  | EmptyString => false
  | String c rest => Ascii.eqb c sep || contains sep rest
  end.

Definition slash : ascii := "/"%char.

(** The dict built by [find_arbitrage_opportunities]; the field [pair_name]
    is its key ['pair']. *)
Record Opportunity : Type := mkOpportunity
  { pair_name : string;
    buy_exchange : string;
    sell_exchange : string;
    buy_price : float;
    sell_price : float;
    profit_percentage : float;
    timestamp : string }.

Record ArbitrageBot : Type := mkBot
  { exchanges : list string;
    pairs : list TradingPair;
    threshold : float;
    max_loan_amount : float;
    monitoring_enabled : bool;
    notification_enabled : bool;
    slack_webhook : option string }.

(** The JSON document [save_config] writes to [bot_config.json]. *)
Record config : Type := mkConfig
  { cfg_pairs : list TradingPair;
    cfg_threshold : float;
    cfg_max_loan_amount : float;
    cfg_monitoring_enabled : bool;
    cfg_notification_enabled : bool;
    cfg_last_updated : string }.

(** What an exchange adapter's [get_price] does when awaited. *)
Inductive reply : Type :=
| Quote (price : float)
| NoQuote
| Fails (e : exn).

(** Texts handed to [send_slack_notification], by their content. *)
Inductive notice : Type :=
| OpportunityNotice (best : Opportunity) (loan : float)
| MonitoringErrorNotice (e : exn)
| ThresholdNotice (t : float).

(** Log lines, outgoing webhook posts and sleeps, in the order they happen. *)
Inductive event : Type :=
| MonitoringStarting
| Checking (pair : string)
| PriceError (exchange : string) (e : exn)
| Found (best : Opportunity) (loan : float)
| NoOpportunities (pair : string)
| NoPrices (pair : string)
| CycleError (e : exn)
| SlackPost (n : notice) (color : string) (time : string)
| Sleep (seconds : nat)
| ConfigSaved
| ConfigSaveError
| PairsUpdated (names : list string)
| ThresholdUpdated (t : float).

(** Everything outside the bot object: the wall clock ([now k] is the k-th
    reading, [ticks] counts the readings made), the exchange adapters, the
    configuration file and the trace of emitted events. *)
Record World : Type := mkWorld
  { now : nat -> string;
    ticks : nat;
    adapters : string -> string -> string -> reply;
    config_file : option config;
    disk_writable : bool;
    trace : list event }.

Record state : Type := mkState { bot : ArbitrageBot; world : World }.

Definition with_bot (f : ArbitrageBot -> ArbitrageBot) (s : state) : state :=
  mkState (f (bot s)) (world s).

Definition with_world (f : World -> World) (s : state) : state :=
  mkState (bot s) (f (world s)).

Definition set_pairs (ps : list TradingPair) (b : ArbitrageBot) : ArbitrageBot :=
  mkBot (exchanges b) ps (threshold b) (max_loan_amount b)
        (monitoring_enabled b) (notification_enabled b) (slack_webhook b).

Definition set_threshold (t : float) (b : ArbitrageBot) : ArbitrageBot :=
  mkBot (exchanges b) (pairs b) t (max_loan_amount b)
        (monitoring_enabled b) (notification_enabled b) (slack_webhook b).

Definition tick (w : World) : World :=
  mkWorld (now w) (S (ticks w)) (adapters w) (config_file w) (disk_writable w) (trace w).

Definition emit (e : event) (w : World) : World :=
  mkWorld (now w) (ticks w) (adapters w) (config_file w) (disk_writable w) (trace w ++ [e]).

Definition write_config (c : config) (w : World) : World :=
  mkWorld (now w) (ticks w) (adapters w) (Some c) (disk_writable w) (trace w).

(** [datetime.now().isoformat()] *)
Definition datetime_now : M state string :=
  fun s => (Ok (now (world s) (ticks (world s))), with_world tick s).

Definition log (e : event) : M state unit := modify (with_world (emit e)).

(** [asyncio.sleep(seconds)] *)
Definition sleep (seconds : nat) : M state unit := log (Sleep seconds).

(** The keys of [self.exchange_apis]. *)
Definition exchange_apis : list string :=
  ["uniswap"; "sushiswap"; "pancakeswap"; "quickswap"; "traderjoe";
   "pangolin"; "biswap"; "apeswap"; "curve"; "balancer"]%string.

Definition known_exchange (name : string) : bool :=
  existsb (String.eqb name) exchange_apis.

(** [await api.get_price(base, quote)] *)
Definition api_get_price (exchange_name b q : string) : M state (option float) :=
  fun s => match adapters (world s) exchange_name b q with
           | Quote p => (Ok (Some p), s)
           | NoQuote => (Ok None, s)
           | Fails e => (Raise e, s)
           end.

(** [save_config]: the document is built (reading the clock), then written;
    a failed write is logged and swallowed. *)
Definition save_config : M state unit :=
  stamp ← datetime_now;
  b ← gets bot;
  writable ← gets (fun s => disk_writable (world s));
  if writable : bool then
    modify (with_world (write_config
      (mkConfig (pairs b) (threshold b) (max_loan_amount b)
                (monitoring_enabled b) (notification_enabled b) stamp)));;
    log ConfigSaved
  else log ConfigSaveError.

Definition webhook_configured (b : ArbitrageBot) : bool :=
  match slack_webhook b with
  | Some (String _ _) => true
  | _ => false
  end.

(** [send_slack_notification]: nothing without a webhook or with
    notifications off; otherwise one post stamped with the current time.
    Delivery problems are handled inside and never reach the caller. *)
Definition send_slack_notification (message : notice) (color : string) : M state unit :=
  b ← gets bot;
  if negb (webhook_configured b) || negb (notification_enabled b) then mret tt
  else stamp ← datetime_now; log (SlackPost message color stamp).

(** The body of the per-exchange loop of [get_prices]. *)
Definition get_prices_step (pair : TradingPair) (exchange_name : string)
    (prices : dict float) : M state (dict float) :=
  if known_exchange exchange_name then
    try_except
      (price ← api_get_price exchange_name (base pair) (quote pair);
       match price with
       | Some p =>
           if truthy p && fgt p 0 then mret (dict_set prices exchange_name p)
           else mret prices
       | None => mret prices
       end)
      (fun e => log (PriceError exchange_name e);; mret prices)
  else mret prices.

Definition get_prices (pair : TradingPair) : M state (dict float) :=
  names ← gets (fun s => exchanges (bot s));
  for_fold names [] (get_prices_step pair).

(** The body of the inner loop of [find_arbitrage_opportunities]: one ordered
    pair of exchanges, the list [opportunities] threaded along. *)
Definition consider (prices : dict float) (pair : TradingPair)
    (buy sell : string) (opportunities : list Opportunity)
  : M state (list Opportunity) :=
  if negb (String.eqb buy sell) then
    bp ← getitem prices buy;
    sp ← getitem prices sell;
    if fgt bp 0 && fgt sp 0 then
      let pct := ((sp - bp) / bp * 100)%float in
      limit ← gets (fun s => threshold (bot s));
      if fge pct limit then
        stamp ← datetime_now;
        mret (opportunities ++
              [mkOpportunity (TradingPair_str pair) buy sell bp sp pct stamp])
      else mret opportunities
    else mret opportunities
  else mret opportunities.

(** The two nested loops: the list [opportunities] before it is sorted. *)
Definition collect_opportunities (prices : dict float) (pair : TradingPair)
  : M state (list Opportunity) :=
  let names := dict_keys prices in
  for_fold names []
    (fun buy opportunities =>
       for_fold names opportunities (consider prices pair buy)).

Definition find_arbitrage_opportunities (prices : dict float) (pair : TradingPair)
  : M state (list Opportunity) :=
  if (length prices <? 2)%nat then mret []
  else
    opportunities ← collect_opportunities prices pair;
    mret (sorted_reverse profit_percentage opportunities).

(** The body of [for pair in self.pairs] in [monitor_pairs]. *)
Definition check_pair (pair : TradingPair) : M state unit :=
  log (Checking (TradingPair_str pair));;
  prices ← get_prices pair;
  match prices with
  | _ :: _ =>
      opportunities ← find_arbitrage_opportunities prices pair;
      match opportunities with
      | best :: _ =>
          loan ← gets (fun s => max_loan_amount (bot s));
          log (Found best loan);;
          send_slack_notification (OpportunityNotice best loan) "good"
      | [] => log (NoOpportunities (TradingPair_str pair))
      end
  | [] => log (NoPrices (TradingPair_str pair))
  end.

(** One turn of the [while] loop of [monitor_pairs], the body of its [for]
    loop being [evaluate]: the [try] block around the whole scan, and its
    handler. *)
Definition monitor_cycle_with (evaluate : TradingPair -> M state unit) : M state unit :=
  try_except
    (ps ← gets (fun s => pairs (bot s));
     for_each ps evaluate;;
     sleep 60)
    (fun e =>
       log (CycleError e);;
       send_slack_notification (MonitoringErrorNotice e) "danger";;
       sleep 30).

Definition monitor_cycle : M state unit := monitor_cycle_with check_pair.

(** How a run of the loop that is cut after some turns ends: the loop
    condition was found false, or the turns were used up with the loop still
    going. *)
Inductive loop_end : Type :=
| Stopped
| StillRunning.

(** The [while] loop of [monitor_pairs], cut after [fuel] turns. *)
Fixpoint monitor_loop (fuel : nat) : M state loop_end :=
  match fuel with
  | O => mret StillRunning
  | S fuel' =>
      enabled ← gets (fun s => monitoring_enabled (bot s));
      if enabled : bool then monitor_cycle;; monitor_loop fuel' else mret Stopped
  end.

(** [monitor_pairs]: the starting line of the log, then the loop. *)
Definition monitor_pairs (fuel : nat) : M state loop_end :=
  log MonitoringStarting;;
  monitor_loop fuel.

Definition update_trading_pairs (new_pairs : list string) : M state unit :=
  ps ← lift (comprehension (fun pair => TradingPair_init (split slash pair)) new_pairs);
  modify (with_bot (set_pairs ps));;
  save_config;;
  names ← gets (fun s => map TradingPair_str (pairs (bot s)));
  log (PairsUpdated names).

Definition update_threshold (new_threshold : float) : M state unit :=
  modify (with_bot (set_threshold new_threshold));;
  save_config;;
  t ← gets (fun s => threshold (bot s));
  log (ThresholdUpdated t).

End monitorbot.

(** ** slack_bot.py *)

Module slack_bot.
Import monitorbot.

(** The ["text"] of the dict a command handler returns, by its content. *)
Inductive response : Type :=
| MustBePositive        (* "Threshold must be greater than 0%" *)
| TooHigh               (* "Threshold too high (>50%). ..." *)
| Updated (t : float).  (* "Profit threshold updated to {t}%" *)

(** [SlackBot.update_threshold]; [self.bot] is the bot of the shared state. *)
Definition update_threshold (threshold : float) : M state response :=
  if (threshold <=? 0)%float then mret MustBePositive
  else if fgt threshold 50 then mret TooHigh
  else
    monitorbot.update_threshold threshold;;
    send_slack_notification (ThresholdNotice threshold) "good";;
    mret (Updated threshold).

End slack_bot.

(** ** src/flashloan_bot.py *)

Module flashloan_bot.

#[global] Instance result_ret : MRet result := fun A a => Ok a.

#[global] Instance result_bind : MBind result := fun A B k r =>
  match r with
  | Ok a => k a
  | Raise e => Raise e
  end.

(** A value stored in an opportunity dict, seen through [str()]: either its
    text is a decimal literal (an int, a float such as [5.0], a numeric
    string, a Decimal), or it is not (a pair name, [None], a nested dict).
    The texts of NaN and of the infinities, which [Decimal] accepts as well,
    are not among the values modelled. *)
Inductive pyval : Type :=
| Numeric (d : decimal)
| NonNumeric (text : string).

(** [Decimal(str(v))] *)
Definition Decimal_of_str (v : pyval) : result decimal :=
  match v with
  | Numeric d => Ok d
  | NonNumeric _ => Raise InvalidOperation
  end.

(** [opportunity.get(key, default)] *)
Definition get (opportunity : gmap string pyval) (key : string) (default : pyval) : pyval :=
  match opportunity !! key with
  | Some v => v
  | None => default
  end.

(** [ContractIntegration.get_gas_price]: the node's gas price in wei, or the
    exception the call re-raises. *)
Record ContractIntegration : Type := mkContract { get_gas_price : result Z }.

Record FlashLoanBot : Type := mkFlashLoanBot
  { contract_integration : option ContractIntegration;
    min_profit_threshold : decimal;
    max_loan_amount : decimal }.

(** What a local variable of [calculate_flashloan_profit] can hold: a Decimal,
    or the coroutine object that calling an [async def] method returns.  The
    coroutine carries what awaiting it would give. *)
Inductive pyobj : Type :=
| ObjDecimal (d : decimal)
| ObjCoroutine (awaited : result decimal).

(** [await o] *)
Definition await (o : pyobj) : result decimal :=
  match o with
  | ObjCoroutine r => r
  | ObjDecimal _ => Raise TypeError
  end.

(** [a * b] and [a - b]: Decimal arithmetic between Decimals; a coroutine
    operand is an unsupported operand type. *)
Definition py_mul (a b : pyobj) : result pyobj :=
  match a, b with
  | ObjDecimal x, ObjDecimal y => d ← dec_mul x y; Ok (ObjDecimal d)
  | _, _ => Raise TypeError
  end.

Definition py_sub (a b : pyobj) : result pyobj :=
  match a, b with
  | ObjDecimal x, ObjDecimal y => d ← dec_sub x y; Ok (ObjDecimal d)
  | _, _ => Raise TypeError
  end.

(** What [return o] hands to the awaiting caller of a method typed [-> Decimal]. *)
Definition as_decimal (o : pyobj) : result decimal :=
  match o with
  | ObjDecimal d => Ok d
  | ObjCoroutine _ => Raise TypeError
  end.

(** The statements of [calculate_optimal_loan_amount]. *)
Definition optimal_loan (self : FlashLoanBot) (opportunity : gmap string pyval)
  : result decimal :=
  base_amount ← Decimal_of_str (get opportunity "amount" (Numeric (Dec 100 0)));
  profit_rate ← Decimal_of_str (get opportunity "profit_rate" (Numeric (Dec 1 (-2))));
  scaled ← dec_mul base_amount (Dec 10 0);
  mret (dec_min scaled (max_loan_amount self)).

(** The method is an [async def]: a call returns a coroutine object, and the
    statements run when it is awaited. *)
Definition calculate_optimal_loan_amount (self : FlashLoanBot)
    (opportunity : gmap string pyval) : pyobj :=
  ObjCoroutine (optimal_loan self opportunity).

(** The end of an exact Decimal division: trailing zeros of the quotient
    are dropped while its exponent is below the ideal exponent 0. *)
Fixpoint strip_zeros (fuel : nat) (c e : Z) : decimal :=
  match fuel with
  | O => Dec c e
  | S fuel' =>
      if (e <? 0) && (c mod 10 =? 0) then strip_zeros fuel' (c / 10) (e + 1)
      else Dec c e
  end.

(** [Web3.fromWei(wei, 'ether')]: zero is returned as it is, values outside
    [0, 2^256 - 1] are refused, the rest is divided by [10^18] (exactly, in a
    context of 999 digits). *)
Definition fromWei_ether (wei : Z) : result decimal :=
  if (wei <? 0) || (2 ^ 256 - 1 <? wei) then Raise ValueError
  else if wei =? 0 then Ok (Dec 0 0)
  else Ok (strip_zeros 18 wei (-18)).

Definition fallback_gas_cost : decimal := Dec 1 (-2).

(** [estimate_gas_cost], awaited: the [try] body, and the handler that
    answers every exception with the fallback [Decimal("0.01")]. *)
Definition estimate_gas_cost (self : FlashLoanBot) : result decimal :=
  let attempt : result decimal :=
    gas_price ← match contract_integration self with
                | Some c => get_gas_price c
                | None => Raise AttributeError
                end;
    let estimated_gas := 500000 in
    let gas_cost_wei := gas_price * estimated_gas in
    fromWei_ether gas_cost_wei in
  match attempt with
  | Ok gas_cost_eth => Ok gas_cost_eth
  | Raise _ => Ok fallback_gas_cost
  end.

Definition flashloan_fee_rate : decimal := Dec 9 (-4).

(** The statements of [calculate_flashloan_profit], with the value bound to
    its local [loan_amount] as a parameter: the profit read from the dict, the
    fee, the awaited gas cost and the net profit. *)
Definition net_profit_from (self : FlashLoanBot) (opportunity : gmap string pyval)
    (loan_amount : pyobj) : result decimal :=
  profit ← Decimal_of_str (get opportunity "profit" (Numeric (Dec 0 0)));
  flashloan_fee ← py_mul loan_amount (ObjDecimal flashloan_fee_rate);
  gas_cost ← estimate_gas_cost self;
  gross ← py_sub (ObjDecimal profit) flashloan_fee;
  net_profit ← py_sub gross (ObjDecimal gas_cost);
  as_decimal net_profit.

(** [calculate_flashloan_profit], awaited.  The source binds [loan_amount]
    to the result of calling [calculate_optimal_loan_amount] without
    awaiting it. *)
Definition calculate_flashloan_profit (self : FlashLoanBot)
    (opportunity : gmap string pyval) : result decimal :=
  net_profit_from self opportunity (calculate_optimal_loan_amount self opportunity).

End flashloan_bot.

(** ** monitorbot.py: loading the configuration, the other setters *)

Module monitorbot_config.
Import monitorbot.

(** Texts the command handlers hand to [send_slack_notification]. *)
Inductive post_text : Type :=
| PairAdded (pair : string)
| PairRemoved (pair : string)
| MaxLoanNotice (amount : float)
| NotificationsNotice (enabled : bool)
| MonitoringStarted
| MonitoringStopped.

(** Log lines and webhook posts of the methods of this part. *)
Inductive note : Type :=
| ConfigLoaded
| ConfigLoadError (e : exn)
| MaxLoanUpdated (amount : float)
| MonitoringToggled (enabled : bool)
| NotificationsToggled (enabled : bool)
| Initialized (threshold : float)
| Posted (text : post_text) (color : string) (time : string).

(** The state of the bot and its world, with the notes of this part; each
    note is kept with the length the trace had when it was written, so the
    order of notes and trace events is not lost. *)
Record session : Type := mkSession { inner : state; notes : list (nat * note) }.

(** A computation of the part above, run inside a session. *)
Definition in_bot {A} (c : M state A) : M session A :=
  fun x => match c (inner x) with
           | (r, s') => (r, mkSession s' (notes x))
           end.

Definition say (n : note) : M session unit :=
  fun x => (Ok tt,
            mkSession (inner x)
                      (notes x ++ [(length (trace (world (inner x))), n)])).

Definition set_max_loan_amount (a : float) (b : ArbitrageBot) : ArbitrageBot :=
  mkBot (exchanges b) (pairs b) (threshold b) a
        (monitoring_enabled b) (notification_enabled b) (slack_webhook b).

Definition set_monitoring_enabled (v : bool) (b : ArbitrageBot) : ArbitrageBot :=
  mkBot (exchanges b) (pairs b) (threshold b) (max_loan_amount b)
        v (notification_enabled b) (slack_webhook b).

Definition set_notification_enabled (v : bool) (b : ArbitrageBot) : ArbitrageBot :=
  mkBot (exchanges b) (pairs b) (threshold b) (max_loan_amount b)
        (monitoring_enabled b) v (slack_webhook b).

Definition set_slack_webhook (v : option string) (b : ArbitrageBot) : ArbitrageBot :=
  mkBot (exchanges b) (pairs b) (threshold b) (max_loan_amount b)
        (monitoring_enabled b) (notification_enabled b) v.

(** [send_slack_notification] for the texts of the command handlers: the
    same two guards, the same reading of the clock. *)
Definition post (text : post_text) (color : string) : M session unit :=
  b ← in_bot (gets bot);
  if negb (webhook_configured b) || negb (notification_enabled b) then mret tt
  else stamp ← in_bot datetime_now; say (Posted text color stamp).

(** A parsed configuration document: any key may be missing, and so may the
    keys of an entry of ['pairs']. *)
Record pair_entry : Type := mkEntry
  { entry_base : option string;
    entry_quote : option string;
    entry_amount : option amount_val }.

Record document : Type := mkDocument
  { doc_pairs : option (list pair_entry);
    doc_threshold : option float;
    doc_max_loan_amount : option float;
    doc_monitoring_enabled : option bool;
    doc_notification_enabled : option bool }.

(** The entry [save_config] writes for a pair. *)
Definition entry_of (p : TradingPair) : pair_entry :=
  mkEntry (Some (base p)) (Some (quote p)) (Some (amount p)).

(** The document [json.load] reads back from what [save_config] wrote. *)
Definition stored_document (c : config) : document :=
  mkDocument
    (Some (map entry_of (cfg_pairs c)))
    (Some (cfg_threshold c))
    (Some (cfg_max_loan_amount c))
    (Some (cfg_monitoring_enabled c))
    (Some (cfg_notification_enabled c)).

(** [TradingPair(p['base'], p['quote'], p.get('amount', 1.0))] *)
Definition pair_of_entry (p : pair_entry) : result TradingPair :=
  match entry_base p, entry_quote p with
  | Some b, Some q => Ok (mkPair b q (default (AmountFloat 1) (entry_amount p)))
  | _, _ => Raise KeyError
  end.

(** The assignments of [load_config] from the parsed document. *)
Definition apply_document (d : document) : M state unit :=
  ps ← lift (comprehension pair_of_entry (default [] (doc_pairs d)));
  modify (with_bot (set_pairs ps));;
  t ← gets (fun s => threshold (bot s));
  modify (with_bot (set_threshold (default t (doc_threshold d))));;
  a ← gets (fun s => max_loan_amount (bot s));
  modify (with_bot (set_max_loan_amount (default a (doc_max_loan_amount d))));;
  modify (with_bot (set_monitoring_enabled (default true (doc_monitoring_enabled d))));;
  modify (with_bot (set_notification_enabled (default true (doc_notification_enabled d)))).

(** The [try] of [load_config] once the file has been parsed to [d]. *)
Definition load_document (d : document) : M session unit :=
  try_except
    (in_bot (apply_document d);; say ConfigLoaded)
    (fun e => say (ConfigLoadError e)).

(** [load_config]: nothing without a file. *)
Definition load_config : M session unit :=
  file ← in_bot (gets (fun s => config_file (world s)));
  match file with
  | Some c => load_document (stored_document c)
  | None => mret tt
  end.

(** The environment variable MAX_LOAN_AMOUNT as [float] meets it: not set,
    set to a text that [float] parses, or set to a text that it rejects. *)
Inductive env_number : Type :=
| EnvUnset
| EnvNumber (value : float)
| EnvNotANumber.

(** [float(os.getenv('MAX_LOAN_AMOUNT', 1000))] *)
Definition float_of_env (v : env_number) : result float :=
  match v with
  | EnvUnset => Ok 1000%float
  | EnvNumber value => Ok value
  | EnvNotANumber => Raise ValueError
  end.

(** [ArbitrageBot.__init__] in the world [w]; [env_max_loan] and
    [env_webhook] are what the environment variables MAX_LOAN_AMOUNT and
    SLACK_WEBHOOK_URL give.  The maximal loan is parsed before anything is
    loaded, outside any [try]: when that raises there is no bot, and nothing
    has touched the world. *)
Definition ArbitrageBot_init (exchange_names : list string) (ps : list TradingPair)
    (limit : float) (env_max_loan : env_number) (env_webhook : option string)
    (w : World) : result session :=
  match float_of_env env_max_loan with
  | Raise e => Raise e
  | Ok max_loan =>
      match (load_config;;
             in_bot (modify (with_bot (set_slack_webhook env_webhook)));;
             t ← in_bot (gets (fun s => threshold (bot s)));
             say (Initialized t))
              (mkSession
                 (mkState (mkBot exchange_names ps limit max_loan true true None) w) [])
      with
      | (Ok _, x) => Ok x
      | (Raise e, _) => Raise e
      end
  end.

Definition update_max_loan (new_amount : float) : M session unit :=
  in_bot (modify (with_bot (set_max_loan_amount new_amount)));;
  in_bot save_config;;
  a ← in_bot (gets (fun s => max_loan_amount (bot s)));
  say (MaxLoanUpdated a).

Definition toggle_monitoring (enabled : bool) : M session unit :=
  in_bot (modify (with_bot (set_monitoring_enabled enabled)));;
  in_bot save_config;;
  say (MonitoringToggled enabled).

Definition toggle_notifications (enabled : bool) : M session unit :=
  in_bot (modify (with_bot (set_notification_enabled enabled)));;
  in_bot save_config;;
  say (NotificationsToggled enabled).

(** The dict [get_config] returns. *)
Record config_view : Type := mkView
  { view_pairs : list string;
    view_threshold : float;
    view_max_loan_amount : float;
    view_monitoring_enabled : bool;
    view_notification_enabled : bool;
    view_exchanges : list string }.

Definition get_config : M state config_view :=
  gets (fun s =>
          mkView (map TradingPair_str (pairs (bot s))) (threshold (bot s))
                 (max_loan_amount (bot s)) (monitoring_enabled (bot s))
                 (notification_enabled (bot s)) (exchanges (bot s))).

End monitorbot_config.

(** ** slack_bot.py: the other command handlers *)

Module slack_commands.
Import monitorbot monitorbot_config.

(** The ["text"] of the dict a handler returns, by its content. *)
Inductive answer : Type :=
| AlreadyMonitoring
| StartedMonitoring
| AlreadyStopped
| StoppedMonitoring
| InvalidFormat
| AlreadyExists (pair : string)
| Added (pair : string)
| ErrorAdding (e : exn)
| NotFound (pair : string)
| Removed (pair : string)
| ErrorRemoving (e : exn)
| LoanMustBePositive
| LoanTooHigh
| LoanUpdated (amount : float)
| NotificationsSet (enabled : bool).

(** [x in names] for a list of strings. *)
Definition member (x : string) (names : list string) : bool :=
  existsb (String.eqb x) names.

(** [names.remove(x)]: the first occurrence goes. *)
Fixpoint remove_first (x : string) (names : list string) : list string :=
  match names with
  | [] => []
  | y :: rest => if String.eqb y x then rest else y :: remove_first x rest
  end.

Definition start_monitoring : M session answer :=
  running ← in_bot (gets (fun s => monitoring_enabled (bot s)));
  if running : bool then mret AlreadyMonitoring
  else
    toggle_monitoring true;;
    post MonitoringStarted "good";;
    mret StartedMonitoring.

Definition stop_monitoring : M session answer :=
  running ← in_bot (gets (fun s => monitoring_enabled (bot s)));
  if negb running then mret AlreadyStopped
  else
    toggle_monitoring false;;
    post MonitoringStopped "warning";;
    mret StoppedMonitoring.

Definition add_pair (pair : string) : M session answer :=
  try_except
    (if negb (contains slash pair) then mret InvalidFormat
     else
       current_pairs ← in_bot (gets (fun s => map TradingPair_str (pairs (bot s))));
       if member pair current_pairs then mret (AlreadyExists pair)
       else
         in_bot (update_trading_pairs (current_pairs ++ [pair]));;
         post (PairAdded pair) "good";;
         mret (Added pair))
    (fun e => mret (ErrorAdding e)).

Definition remove_pair (pair : string) : M session answer :=
  try_except
    (current_pairs ← in_bot (gets (fun s => map TradingPair_str (pairs (bot s))));
     if negb (member pair current_pairs) then mret (NotFound pair)
     else
       in_bot (update_trading_pairs (remove_first pair current_pairs));;
       post (PairRemoved pair) "warning";;
       mret (Removed pair))
    (fun e => mret (ErrorRemoving e)).

Definition update_loan_amount (amount : float) : M session answer :=
  if (amount <=? 0)%float then mret LoanMustBePositive
  else if fgt amount 10000 then mret LoanTooHigh
  else
    update_max_loan amount;;
    post (MaxLoanNotice amount) "good";;
    mret (LoanUpdated amount).

(** [SlackBot.toggle_notifications] *)
Definition toggle_notifications (enabled : bool) : M session answer :=
  monitorbot_config.toggle_notifications enabled;;
  post (NotificationsNotice enabled) (if enabled then "good" else "warning");;
  mret (NotificationsSet enabled).

End slack_commands.

(** * Facts *)

(** ** The order of Python floats *)

Module PyFloatFacts.

Lemma SFcompare_rank (f1 f2 : spec_float) :
  SFcompare f1 f2 =
  match sf_rank f1, sf_rank f2 with
  | Some a, Some b => Some (cmp3 a b)
  | _, _ => None
  end.
Proof.
  destruct f1 as [[]|[]| |[] m1 e1], f2 as [[]|[]| |[] m2 e2]; try reflexivity.
  cbn. rewrite Z.compare_opp, (Z.compare_antisym e1 e2).
  destruct (e1 ?= e2); reflexivity.
Qed.

Lemma cmp3_spec (a b : Z * Z * Z) :
  CompareSpec (a = b) (lt3 a b) (lt3 b a) (cmp3 a b).
Proof.
  destruct a as [[a1 a2] a3], b as [[b1 b2] b3]. unfold cmp3, lt3.
  destruct (Z.compare_spec a1 b1); [ | constructor; lia | constructor; lia ].
  destruct (Z.compare_spec a2 b2); [ | constructor; lia | constructor; lia ].
  destruct (Z.compare_spec a3 b3); constructor; [ congruence | lia | lia ].
Qed.

Lemma lt3_irrefl (a : Z * Z * Z) : ~ lt3 a a.
Proof. destruct a as [[a1 a2] a3]. unfold lt3. lia. Qed.

Lemma lt3_trans (a b c : Z * Z * Z) : lt3 a b -> lt3 b c -> lt3 a c.
Proof.
  destruct a as [[a1 a2] a3], b as [[b1 b2] b3], c as [[c1 c2] c3].
  unfold lt3. lia.
Qed.

Lemma ltb_rank (x y : float) :
  (x <? y)%float = true <->
  exists a b, rank x = Some a /\ rank y = Some b /\ lt3 a b.
Proof.
  rewrite FloatAxioms.ltb_spec. unfold SFltb, rank. rewrite SFcompare_rank.
  destruct (sf_rank (Prim2SF x)) as [a|], (sf_rank (Prim2SF y)) as [b|];
    try (split; [ discriminate | intros (? & ? & ? & ? & ?); discriminate ]).
  destruct (cmp3_spec a b) as [E | L | G]; split; try discriminate; eauto.
  - intros (a' & b' & Ha & Hb & L). injection Ha as <-. injection Hb as <-.
    subst b. now apply lt3_irrefl in L.
  - intros (a' & b' & Ha & Hb & L). injection Ha as <-. injection Hb as <-.
    exfalso. exact (lt3_irrefl _ (lt3_trans _ _ _ L G)).
Qed.

Lemma leb_rank (x y : float) :
  (x <=? y)%float = true <->
  exists a b, rank x = Some a /\ rank y = Some b /\ ~ lt3 b a.
Proof.
  rewrite FloatAxioms.leb_spec. unfold SFleb, rank. rewrite SFcompare_rank.
  destruct (sf_rank (Prim2SF x)) as [a|], (sf_rank (Prim2SF y)) as [b|];
    try (split; [ discriminate | intros (? & ? & ? & ? & ?); discriminate ]).
  destruct (cmp3_spec a b) as [E | L | G]; split;
    try discriminate; try (intros; reflexivity).
  - intros _. exists a, b. subst b. auto using lt3_irrefl.
  - intros _. exists a, b. repeat split; auto.
    intros G. exact (lt3_irrefl _ (lt3_trans _ _ _ L G)).
  - intros (a' & b' & Ha & Hb & N). injection Ha as <-. injection Hb as <-.
    contradiction.
Qed.

Lemma eqb_rank (x y : float) :
  (x =? y)%float = true <-> exists a, rank x = Some a /\ rank y = Some a.
Proof.
  rewrite FloatAxioms.eqb_spec. unfold SFeqb, rank. rewrite SFcompare_rank.
  destruct (sf_rank (Prim2SF x)) as [a|], (sf_rank (Prim2SF y)) as [b|];
    try (split; [ discriminate | intros (? & ? & ?); discriminate ]).
  destruct (cmp3_spec a b) as [E | L | G]; split;
    try discriminate; try (intros; reflexivity).
  - intros _. exists a. subst b. auto.
  - intros (c & Ha & Hb). injection Ha as <-. injection Hb as <-.
    now apply lt3_irrefl in L.
  - intros (c & Ha & Hb). injection Ha as <-. injection Hb as <-.
    now apply lt3_irrefl in G.
Qed.

Lemma lt3_total (a b : Z * Z * Z) : lt3 a b \/ a = b \/ lt3 b a.
Proof. destruct (cmp3_spec a b); auto. Qed.

Lemma ltb_asym (x y : float) : (x <? y)%float = true -> (y <? x)%float = false.
Proof.
  intros H. apply not_true_is_false. intros H'.
  apply ltb_rank in H as (a & b & Ha & Hb & L).
  apply ltb_rank in H' as (b' & a' & Hb' & Ha' & L').
  rewrite Ha in Ha'. rewrite Hb in Hb'. injection Ha' as <-. injection Hb' as <-.
  exact (lt3_irrefl _ (lt3_trans _ _ _ L L')).
Qed.

Lemma leb_trans (x y z : float) :
  (x <=? y)%float = true -> (y <=? z)%float = true -> (x <=? z)%float = true.
Proof.
  intros H1 H2.
  apply leb_rank in H1 as (a & b & Ha & Hb & N1).
  apply leb_rank in H2 as (b' & c & Hb' & Hc & N2).
  rewrite Hb in Hb'. injection Hb' as <-.
  apply leb_rank. exists a, c. repeat split; auto.
  intros L. destruct (lt3_total a b) as [L1 | [-> | L1]]; auto.
  apply N2. exact (lt3_trans _ _ _ L L1).
Qed.

Lemma leb_ordered_l (x y : float) : (x <=? y)%float = true -> ordered x.
Proof. intros H. apply leb_rank in H as (a & b & Ha & _). unfold ordered. congruence. Qed.

Lemma leb_ordered_r (x y : float) : (x <=? y)%float = true -> ordered y.
Proof. intros H. apply leb_rank in H as (a & b & _ & Hb & _). unfold ordered. congruence. Qed.

(** Between two floats that are not NaN, [not (x < y)] is [y <= x]. *)
Lemma not_ltb_leb (x y : float) :
  ordered x -> ordered y -> (x <? y)%float = false -> (y <=? x)%float = true.
Proof.
  unfold ordered. intros Hx Hy H.
  destruct (rank x) as [a|] eqn:Ha; [ | congruence ].
  destruct (rank y) as [b|] eqn:Hb; [ | congruence ].
  apply leb_rank. exists b, a. repeat split; auto.
  intros L. apply not_true_iff_false in H. apply H. apply ltb_rank. eauto.
Qed.

Lemma ltb_leb (x y : float) : (x <? y)%float = true -> (x <=? y)%float = true.
Proof.
  intros H. apply ltb_rank in H as (a & b & Ha & Hb & L).
  apply leb_rank. exists a, b. repeat split; auto.
  intros L'. exact (lt3_irrefl _ (lt3_trans _ _ _ L L')).
Qed.

Lemma ltb_leb_false (x y : float) : (x <? y)%float = true -> (y <=? x)%float = false.
Proof.
  intros H. apply not_true_is_false. intros H'.
  apply ltb_rank in H as (a & b & Ha & Hb & L).
  apply leb_rank in H' as (b' & a' & Hb' & Ha' & N).
  rewrite Ha in Ha'. rewrite Hb in Hb'. injection Ha' as <-. injection Hb' as <-.
  contradiction.
Qed.

(** Two floats equal ([==]) to a common third are not strictly ordered. *)
Lemma eqb_common_not_ltb (x y k : float) :
  (x =? k)%float = true -> (y =? k)%float = true -> (x <? y)%float = false.
Proof.
  intros Hx Hy. apply not_true_is_false. intros L.
  apply eqb_rank in Hx as (a & Ha & Hk). apply eqb_rank in Hy as (b & Hb & Hk').
  rewrite Hk in Hk'. injection Hk' as <-.
  apply ltb_rank in L as (a' & b' & Ha' & Hb' & L).
  rewrite Ha in Ha'. rewrite Hb in Hb'. injection Ha' as <-. injection Hb' as <-.
  now apply lt3_irrefl in L.
Qed.

End PyFloatFacts.

(** ** [sorted(..., reverse=True)]: a stable descending sort *)

Module SortedFacts.
Import PyFloatFacts.

Section Sorting.
Context {A : Type} (key : A -> float).

(** Earlier entries have keys [>=] those of all later entries. *)
Definition descending (l : list A) : Prop :=
  StronglySorted (fun a b => fge (key a) (key b) = true) l.

Definition ascending (l : list A) : Prop :=
  StronglySorted (fun a b => (key a <=? key b)%float = true) l.

(** The entries whose key equals ([==]) the float [k], in list order. *)
Definition with_key (k : float) (l : list A) : list A :=
  List.filter (fun e => (key e =? k)%float) l.

Lemma insert_asc_perm (x : A) (l : list A) :
  Permutation (insert_asc key x l) (x :: l).
Proof.
  induction l as [|y l IH]; simpl; [ reflexivity | ].
  destruct (key y <? key x)%float; [ | reflexivity ].
  rewrite IH. apply perm_swap.
Qed.

Lemma sort_asc_perm (l : list A) : Permutation (sort_asc key l) l.
Proof.
  induction l as [|x l IH]; simpl; [ reflexivity | ].
  rewrite insert_asc_perm. now constructor.
Qed.

Lemma sorted_reverse_perm (l : list A) : Permutation (sorted_reverse key l) l.
Proof.
  unfold sorted_reverse.
  rewrite <- Permutation_rev, sort_asc_perm. symmetry. apply Permutation_rev.
Qed.

Lemma insert_asc_with_key (k : float) (x : A) (l : list A) :
  with_key k (insert_asc key x l) = with_key k (x :: l).
Proof.
  unfold with_key.
  induction l as [|y l IH]; [ reflexivity | ].
  cbn [insert_asc]. destruct (key y <? key x)%float eqn:L; [ | reflexivity ].
  cbn [List.filter] in *. rewrite IH.
  destruct (key x =? k)%float eqn:Ex, (key y =? k)%float eqn:Ey; try reflexivity.
  rewrite (eqb_common_not_ltb _ _ _ Ey Ex) in L. discriminate.
Qed.

Lemma sort_asc_with_key (k : float) (l : list A) :
  with_key k (sort_asc key l) = with_key k l.
Proof.
  induction l as [|x l IH]; [ reflexivity | ].
  cbn [sort_asc fold_right]. fold (sort_asc key l).
  rewrite insert_asc_with_key. unfold with_key in *. cbn [List.filter].
  now rewrite IH.
Qed.

(** Stability: each class of equal keys comes out in its input order. *)
Lemma sorted_reverse_with_key (k : float) (l : list A) :
  with_key k (sorted_reverse key l) = with_key k l.
Proof.
  unfold sorted_reverse. unfold with_key at 1. rewrite List.filter_rev.
  fold (with_key k (sort_asc key (rev l))). rewrite sort_asc_with_key.
  unfold with_key. now rewrite List.filter_rev, rev_involutive.
Qed.

Lemma insert_asc_ascending (x : A) (l : list A) :
  ordered (key x) -> Forall (fun e => ordered (key e)) l ->
  ascending l -> ascending (insert_asc key x l).
Proof.
  intros Hx. unfold ascending.
  induction l as [|y l IH]; intros Hl Hs; simpl.
  - repeat constructor.
  - apply Forall_cons_1 in Hl as [Hy Hl]. apply StronglySorted_inv in Hs as [Hs Hyl].
    destruct (key y <? key x)%float eqn:L.
    + constructor; [ now apply IH | ].
      eapply Permutation_Forall; [ symmetry; apply insert_asc_perm | ].
      constructor; [ now apply ltb_leb | exact Hyl ].
    + assert (Hxy : (key x <=? key y)%float = true) by now apply not_ltb_leb.
      constructor; [ now constructor | ].
      constructor; [ exact Hxy | ].
      eapply List.Forall_impl; [ | exact Hyl ].
      intros z Hz. exact (leb_trans _ _ _ Hxy Hz).
Qed.

Lemma sort_asc_ascending (l : list A) :
  Forall (fun e => ordered (key e)) l -> ascending (sort_asc key l).
Proof.
  induction l as [|x l IH]; intros Hl; simpl.
  - constructor.
  - apply Forall_cons_1 in Hl as [Hx Hl]. apply insert_asc_ascending; auto.
    eapply Permutation_Forall; [ symmetry; apply sort_asc_perm | exact Hl ].
Qed.

Lemma descending_snoc (l : list A) (x : A) :
  descending l -> Forall (fun e => (key x <=? key e)%float = true) l ->
  descending (l ++ [x]).
Proof.
  unfold descending, fge. induction l as [|y l IH]; intros Hs Hx; simpl.
  - repeat constructor.
  - apply StronglySorted_inv in Hs as [Hs Hyl]. apply Forall_cons_1 in Hx as [Hxy Hx].
    constructor; [ now apply IH | ].
    apply Forall_app. split; [ exact Hyl | now repeat constructor ].
Qed.

Lemma ascending_rev (l : list A) : ascending l -> descending (rev l).
Proof.
  induction l as [|x l IH]; intros Hs; simpl.
  - constructor.
  - apply StronglySorted_inv in Hs as [Hs Hx].
    apply descending_snoc; [ now apply IH | ].
    now apply List.Forall_rev.
Qed.

(** Sortedness: when no key is NaN, the result is in descending key order. *)
Lemma sorted_reverse_descending (l : list A) :
  Forall (fun e => ordered (key e)) l -> descending (sorted_reverse key l).
Proof.
  intros Hl. apply ascending_rev, sort_asc_ascending. now apply List.Forall_rev.
Qed.

End Sorting.

End SortedFacts.

(** ** The detector in closed form *)

Module DetectorFacts.
Import monitorbot.

(** What [consider] appends for one ordered pair of exchanges, its timestamp
    still to be filled in; [None] when it appends nothing. *)
Definition candidate (prices : dict float) (pair : TradingPair) (limit : float)
    (route : string * string) : option (string -> Opportunity) :=
  let (buy, sell) := route in
  if negb (String.eqb buy sell) then
    match dict_get prices buy, dict_get prices sell with
    | Some bp, Some sp =>
        if fgt bp 0 && fgt sp 0 then
          let pct := ((sp - bp) / bp * 100)%float in
          if fge pct limit then
            Some (mkOpportunity (TradingPair_str pair) buy sell bp sp pct)
          else None
        else None
    | _, _ => None
    end
  else None.

(** The ordered pairs of exchanges in the order the nested loops visit them:
    buy exchange first, sell exchange second. *)
Definition routes (prices : dict float) : list (string * string) :=
  list_prod (dict_keys prices) (dict_keys prices).

Definition candidates (prices : dict float) (pair : TradingPair) (limit : float)
  : list (string -> Opportunity) :=
  omap (candidate prices pair limit) (routes prices).

(** The k-th appended entry carries the k-th clock reading after [n]. *)
Fixpoint stamp (clock : nat -> string) (n : nat) (cs : list (string -> Opportunity))
  : list Opportunity :=
  match cs with
  | [] => []
  | c :: cs' => c (clock n) :: stamp clock (S n) cs'
  end.

(** The world after [n] more clock readings, all else untouched. *)
Definition advance (n : nat) (w : World) : World :=
  mkWorld (now w) (n + ticks w) (adapters w) (config_file w) (disk_writable w) (trace w).

(** An opportunity without its timestamp. *)
Definition untimed (o : Opportunity) : string * string * string * float * float * float :=
  (pair_name o, buy_exchange o, sell_exchange o, buy_price o, sell_price o,
   profit_percentage o).

Lemma advance_0 (s : state) : with_world (advance 0) s = s.
Proof. now destruct s as [b []]. Qed.

Lemma advance_tick (n : nat) (s : state) :
  with_world (advance n) (with_world tick s) = with_world (advance (S n)) s.
Proof.
  destruct s as [b w]. unfold with_world, advance, tick. cbn.
  do 2 f_equal. lia.
Qed.

Lemma advance_advance (n m : nat) (s : state) :
  with_world (advance n) (with_world (advance m) s) = with_world (advance (m + n)) s.
Proof.
  destruct s as [b w]. unfold with_world, advance. cbn. do 2 f_equal. lia.
Qed.

Lemma stamp_app (clock : nat -> string) (n : nat) (l1 l2 : list (string -> Opportunity)) :
  stamp clock n (l1 ++ l2) = stamp clock n l1 ++ stamp clock (length l1 + n) l2.
Proof.
  revert n. induction l1 as [|c l1 IH]; intros n; cbn; [ reflexivity | ].
  rewrite IH. do 3 f_equal. lia.
Qed.

Lemma stamp_length (clock : nat -> string) (n : nat) (cs : list (string -> Opportunity)) :
  length (stamp clock n cs) = length cs.
Proof. revert n. induction cs; intros; cbn; auto. Qed.

Lemma dict_get_key {V} (d : dict V) (k : string) :
  In k (dict_keys d) -> exists v, dict_get d k = Some v.
Proof.
  induction d as [|[k' v'] d IH]; cbn; [ tauto | ].
  intros [-> | H].
  - rewrite String.eqb_refl. eauto.
  - destruct (String.eqb k' k); eauto.
Qed.

(** One turn of the inner loop. *)
Lemma consider_run (prices : dict float) (pair : TradingPair) (buy sell : string)
    (opportunities : list Opportunity) (s : state) :
  In buy (dict_keys prices) -> In sell (dict_keys prices) ->
  consider prices pair buy sell opportunities s =
  match candidate prices pair (threshold (bot s)) (buy, sell) with
  | Some c => (Ok (opportunities ++ [c (now (world s) (ticks (world s)))]),
               with_world tick s)
  | None => (Ok opportunities, s)
  end.
Proof.
  intros Hb Hs.
  destruct (dict_get_key _ _ Hb) as [bp Ebp], (dict_get_key _ _ Hs) as [sp Esp].
  unfold consider, candidate, getitem. rewrite Ebp, Esp.
  destruct (negb (String.eqb buy sell)); [ | reflexivity ].
  unfold mbind, M_bind, mret, M_ret, raise, gets, datetime_now.
  destruct (fgt bp 0 && fgt sp 0); [ | reflexivity ].
  destruct (fge _ _); reflexivity.
Qed.

(** The inner loop for a fixed buy exchange. *)
Lemma inner_loop_run (prices : dict float) (pair : TradingPair) (buy : string)
    (sells : list string) (opportunities : list Opportunity) (s : state) :
  In buy (dict_keys prices) -> incl sells (dict_keys prices) ->
  let cs := omap (candidate prices pair (threshold (bot s))) (map (fun sell => (buy, sell)) sells) in
  for_fold sells opportunities (consider prices pair buy) s =
  (Ok (opportunities ++ stamp (now (world s)) (ticks (world s)) cs),
   with_world (advance (length cs)) s).
Proof.
  intros Hb. revert opportunities s.
  induction sells as [|sell sells IH]; intros opportunities s Hs; cbn zeta.
  - cbn. now rewrite app_nil_r, advance_0.
  - assert (Hsell : In sell (dict_keys prices)) by (apply Hs; now left).
    assert (Hrest : incl sells (dict_keys prices)) by (intros x Hx; apply Hs; now right).
    cbn [for_fold]. unfold mbind, M_bind. rewrite consider_run by assumption.
    cbn [map omap list_omap].
    destruct (candidate prices pair (threshold (bot s)) (buy, sell)) as [c|].
    + rewrite IH by assumption. cbn [stamp length bot world with_world tick ticks now].
      rewrite <- app_assoc. cbn [app]. f_equal.
      destruct s as [b w]. unfold with_world, advance, tick. cbn. do 2 f_equal. lia.
    + now rewrite IH.
Qed.

Lemma outer_loop_run (prices : dict float) (pair : TradingPair)
    (buys : list string) (opportunities : list Opportunity) (s : state) :
  incl buys (dict_keys prices) ->
  let cs := omap (candidate prices pair (threshold (bot s)))
                 (list_prod buys (dict_keys prices)) in
  for_fold buys opportunities
    (fun buy acc => for_fold (dict_keys prices) acc (consider prices pair buy)) s =
  (Ok (opportunities ++ stamp (now (world s)) (ticks (world s)) cs),
   with_world (advance (length cs)) s).
Proof.
  revert opportunities s.
  induction buys as [|buy buys IH]; intros opportunities s Hb; cbn zeta.
  - cbn. now rewrite app_nil_r, advance_0.
  - assert (Hbuy : In buy (dict_keys prices)) by (apply Hb; now left).
    assert (Hrest : incl buys (dict_keys prices)) by (intros x Hx; apply Hb; now right).
    cbn [for_fold list_prod]. unfold mbind, M_bind.
    rewrite inner_loop_run by (auto using incl_refl).
    rewrite IH by assumption. cbn [bot world with_world advance now ticks].
    rewrite omap_app, stamp_app, length_app, <- app_assoc.
    f_equal. destruct s as [b w]. unfold with_world, advance. cbn.
    do 2 f_equal. lia.
Qed.

Lemma collect_run (prices : dict float) (pair : TradingPair) (s : state) :
  let cs := candidates prices pair (threshold (bot s)) in
  collect_opportunities prices pair s =
  (Ok (stamp (now (world s)) (ticks (world s)) cs), with_world (advance (length cs)) s).
Proof.
  unfold collect_opportunities, candidates, routes.
  exact (outer_loop_run prices pair (dict_keys prices) [] s (incl_refl _)).
Qed.

(** With fewer than two prices the loops append nothing. *)
Lemma candidates_short (prices : dict float) (pair : TradingPair) (limit : float) :
  (length prices < 2)%nat -> candidates prices pair limit = [].
Proof.
  unfold candidates, routes, dict_keys.
  destruct prices as [|[k v] [|? ?]]; cbn; try lia; intros _; [ reflexivity | ].
  now rewrite String.eqb_refl.
Qed.

Lemma find_run (prices : dict float) (pair : TradingPair) (s : state) :
  let cs := candidates prices pair (threshold (bot s)) in
  find_arbitrage_opportunities prices pair s =
  (Ok (sorted_reverse profit_percentage (stamp (now (world s)) (ticks (world s)) cs)),
   with_world (advance (length cs)) s).
Proof.
  cbn zeta. unfold find_arbitrage_opportunities.
  destruct (Nat.ltb_spec (length prices) 2) as [Hlt | Hge].
  - rewrite candidates_short by assumption. cbn. now rewrite advance_0.
  - unfold mbind, M_bind. now rewrite collect_run.
Qed.

(** What every appended entry satisfies, whatever its timestamp. *)
Definition well_formed (prices : dict float) (pair : TradingPair) (limit : float)
    (o : Opportunity) : Prop :=
  pair_name o = TradingPair_str pair /\
  buy_exchange o <> sell_exchange o /\
  dict_get prices (buy_exchange o) = Some (buy_price o) /\
  dict_get prices (sell_exchange o) = Some (sell_price o) /\
  fgt (buy_price o) 0 = true /\ fgt (sell_price o) 0 = true /\
  profit_percentage o =
    ((sell_price o - buy_price o) / buy_price o * 100)%float /\
  fge (profit_percentage o) limit = true.

Lemma candidate_sound (prices : dict float) (pair : TradingPair) (limit : float)
    (route : string * string) (c : string -> Opportunity) (t : string) :
  candidate prices pair limit route = Some c ->
  well_formed prices pair limit (c t) /\
  (buy_exchange (c t), sell_exchange (c t)) = route /\
  untimed (c t) = untimed (c EmptyString).
Proof.
  destruct route as [buy sell]. unfold candidate, well_formed.
  destruct (String.eqb_spec buy sell) as [E | N]; [ discriminate | ]. cbn [negb].
  destruct (dict_get prices buy) as [bp|] eqn:Ebp; [ | discriminate ].
  destruct (dict_get prices sell) as [sp|] eqn:Esp; [ | discriminate ].
  destruct (fgt bp 0) eqn:Hb; [ | discriminate ].
  destruct (fgt sp 0) eqn:Hs; [ | discriminate ]. cbn [andb].
  destruct (fge _ limit) eqn:Hp; [ | discriminate ].
  intros [= <-]. cbn. repeat split; auto.
Qed.

Lemma candidates_sound (prices : dict float) (pair : TradingPair) (limit : float) :
  Forall (fun c => forall t, well_formed prices pair limit (c t) /\
                             untimed (c t) = untimed (c EmptyString))
         (candidates prices pair limit).
Proof.
  unfold candidates. induction (routes prices) as [|r rs IH]; cbn; [ constructor | ].
  destruct (candidate prices pair limit r) as [c|] eqn:E; [ | exact IH ].
  constructor; [ | exact IH ].
  intros t. destruct (candidate_sound _ _ _ _ _ t E) as (? & _ & ?). auto.
Qed.

Lemma stamp_Forall (P : Opportunity -> Prop) (clock : nat -> string) (n : nat)
    (cs : list (string -> Opportunity)) :
  Forall (fun c => forall t, P (c t)) cs -> Forall P (stamp clock n cs).
Proof.
  intros H. revert n. induction H; intros n; cbn; constructor; auto.
Qed.

(** Two stampings of the same candidates agree entry by entry but for the
    timestamps. *)
Lemma stamp_untimed (clock1 clock2 : nat -> string) (n1 n2 : nat)
    (cs : list (string -> Opportunity)) :
  Forall (fun c => forall t, untimed (c t) = untimed (c EmptyString)) cs ->
  Forall2 (fun o1 o2 => untimed o1 = untimed o2)
          (stamp clock1 n1 cs) (stamp clock2 n2 cs).
Proof.
  intros H. revert n1 n2. induction H as [|c cs Hc _ IH]; intros n1 n2; cbn.
  - constructor.
  - constructor; [ | apply IH ]. now rewrite (Hc (clock1 n1)), (Hc (clock2 n2)).
Qed.

Section Relabel.
Context {A : Type} (key : A -> float) (R : A -> A -> Prop).
Hypothesis R_key : forall a b, R a b -> key a = key b.

Lemma insert_asc_Forall2 (x1 x2 : A) (l1 l2 : list A) :
  R x1 x2 -> Forall2 R l1 l2 ->
  Forall2 R (insert_asc key x1 l1) (insert_asc key x2 l2).
Proof.
  intros Hx H. induction H as [|y1 y2 l1 l2 Hy Hl IH]; cbn.
  - repeat constructor. exact Hx.
  - rewrite (R_key _ _ Hx), (R_key _ _ Hy).
    destruct (key y2 <? key x2)%float; repeat constructor; auto.
Qed.

Lemma sort_asc_Forall2 (l1 l2 : list A) :
  Forall2 R l1 l2 -> Forall2 R (sort_asc key l1) (sort_asc key l2).
Proof.
  intros H. induction H; cbn; [ constructor | ]. now apply insert_asc_Forall2.
Qed.

Lemma rev_Forall2 (l1 l2 : list A) : Forall2 R l1 l2 -> Forall2 R (rev l1) (rev l2).
Proof.
  intros H. induction H; cbn; [ constructor | ].
  apply List.Forall2_app; [ assumption | now repeat constructor ].
Qed.

Lemma sorted_reverse_Forall2 (l1 l2 : list A) :
  Forall2 R l1 l2 -> Forall2 R (sorted_reverse key l1) (sorted_reverse key l2).
Proof.
  intros H. unfold sorted_reverse. now apply rev_Forall2, sort_asc_Forall2, rev_Forall2.
Qed.

End Relabel.

Lemma Forall2_untimed (l1 l2 : list Opportunity) :
  Forall2 (fun o1 o2 => untimed o1 = untimed o2) l1 l2 ->
  map untimed l1 = map untimed l2.
Proof. intros H. induction H; cbn; congruence. Qed.

End DetectorFacts.

(** ** The opportunity detector *)

Module DetectorSpec.
Import monitorbot PyFloatFacts SortedFacts DetectorFacts.

(** Whether the loops append an entry for the ordered pair [route]. *)
Definition qualifies (prices : dict float) (pair : TradingPair) (limit : float)
    (route : string * string) : bool :=
  match candidate prices pair limit route with
  | Some _ => true
  | None => false
  end.

Definition route_of (o : Opportunity) : string * string :=
  (buy_exchange o, sell_exchange o).

(** A clock whose first two readings differ. *)
Definition two_readings (k : nat) : string :=
  match k with
  | O => "2024-01-01T00:00:00"
  | S _ => "2024-01-01T00:01:00"
  end.

Definition idle_world : World :=
  mkWorld two_readings 0 (fun _ _ _ => NoQuote) None true [].

(** A bot with threshold 1.0 watching WETH/USDC on the exchanges X and Y. *)
Definition bot_one_percent : ArbitrageBot :=
  mkBot ["X"; "Y"] [mkPair "WETH" "USDC" (AmountFloat 1)] 1 1000 true true None.

Definition weth_usdc : TradingPair := mkPair "WETH" "USDC" (AmountFloat 1).

Definition snapshot_A : dict float := [("X", 100%float); ("Y", 102%float)].
Definition snapshot_B : dict float := [("X", 100%float); ("Y", 100.5%float)].

(** Scenario A of the specification: one opportunity, buy on X at 100, sell
    on Y at 102, profit 2.0 percent. *)
Example scenario_A :
  fst (find_arbitrage_opportunities snapshot_A weth_usdc
         (mkState bot_one_percent idle_world)) =
  Ok [mkOpportunity "WETH/USDC" "X" "Y" 100 102 2 "2024-01-01T00:00:00"].
Proof. vm_compute. reflexivity. Qed.

(** Scenario B: a spread of 0.5 percent stays under the threshold. *)
Example scenario_B :
  fst (find_arbitrage_opportunities snapshot_B weth_usdc
         (mkState bot_one_percent idle_world)) = Ok [].
Proof. vm_compute. reflexivity. Qed.

(** Equal profits keep the order of the loops: with three exchanges quoting
    100, 102 and 102, buying on X and selling on Y comes before selling on Z. *)
Example tie_keeps_loop_order :
  option_map (map route_of)
    (match fst (find_arbitrage_opportunities
                  [("X", 100%float); ("Y", 102%float); ("Z", 102%float)] weth_usdc
                  (mkState bot_one_percent idle_world)) with
     | Ok l => Some l
     | Raise _ => None
     end) = Some [("X", "Y"); ("X", "Z")].
Proof. vm_compute. reflexivity. Qed.

Lemma stamp_routes (prices : dict float) (pair : TradingPair) (limit : float)
    (clock : nat -> string) (n : nat) (rs : list (string * string)) :
  map route_of (stamp clock n (omap (candidate prices pair limit) rs)) =
  List.filter (qualifies prices pair limit) rs.
Proof.
  revert n. induction rs as [|r rs IH]; intros n; [ reflexivity | ].
  cbn [omap list_omap List.filter]. unfold qualifies at 1.
  destruct (candidate prices pair limit r) as [c|] eqn:E; [ | apply IH ].
  cbn [stamp map]. rewrite IH. f_equal.
  now destruct (candidate_sound _ _ _ _ _ (clock n) E) as (_ & ? & _).
Qed.

(** C2. Every opportunity the detector returns buys and sells on different
    exchanges, carries the snapshot's prices for them, has
    profit_percentage = (sell_price - buy_price) / buy_price * 100, and that
    percentage is at least the threshold; the detector always returns. *)
Theorem detector_opportunities_well_formed
    (s : state) (prices : dict float) (pair : TradingPair) :
  exists opportunities,
    fst (find_arbitrage_opportunities prices pair s) = Ok opportunities /\
    Forall (fun o =>
              buy_exchange o <> sell_exchange o /\
              dict_get prices (buy_exchange o) = Some (buy_price o) /\
              dict_get prices (sell_exchange o) = Some (sell_price o) /\
              profit_percentage o =
                ((sell_price o - buy_price o) / buy_price o * 100)%float /\
              fge (profit_percentage o) (threshold (bot s)) = true)
           opportunities.
Proof.
  rewrite find_run. eexists. split; [ reflexivity | ].
  eapply Permutation_Forall; [ symmetry; apply sorted_reverse_perm | ].
  apply stamp_Forall.
  eapply List.Forall_impl; [ | apply candidates_sound ].
  intros c Hc t. destruct (Hc t) as [(_ & ? & ? & ? & _ & _ & ? & ?) _]. auto.
Qed.

(** C6. The returned sequence is in descending order of profit_percentage,
    and for every percentage value the entries carrying it appear in the
    order in which the loops generated them; the generated entries follow
    the iteration order of the exchanges (buy exchange outermost). *)
Theorem detector_sorted_stable
    (s : state) (prices : dict float) (pair : TradingPair) :
  exists generated opportunities,
    fst (collect_opportunities prices pair s) = Ok generated /\
    fst (find_arbitrage_opportunities prices pair s) = Ok opportunities /\
    map route_of generated =
      List.filter (qualifies prices pair (threshold (bot s))) (routes prices) /\
    descending profit_percentage opportunities /\
    forall k : float,
      with_key profit_percentage k opportunities =
      with_key profit_percentage k generated.
Proof.
  rewrite find_run, collect_run. do 2 eexists.
  split; [ reflexivity | ]. split; [ reflexivity | ].
  split; [ apply stamp_routes | ].
  split; [ | intros k; apply sorted_reverse_with_key ].
  apply sorted_reverse_descending, stamp_Forall.
  eapply List.Forall_impl; [ | apply candidates_sound ].
  intros c Hc t. destruct (Hc t) as [(_ & _ & _ & _ & _ & _ & _ & Hge) _].
  exact (leb_ordered_r _ _ Hge).
Qed.

(** C8, as stated, fails: the same snapshot, pair and threshold submitted
    twice in a row give two sequences that differ (in their timestamps). *)
Lemma detector_output_depends_on_clock :
  let s0 := mkState bot_one_percent idle_world in
  let s1 := snd (find_arbitrage_opportunities snapshot_A weth_usdc s0) in
  bot s1 = bot s0 /\
  fst (find_arbitrage_opportunities snapshot_A weth_usdc s0) <>
  fst (find_arbitrage_opportunities snapshot_A weth_usdc s1).
Proof. vm_compute. split; [ reflexivity | discriminate ]. Qed.

(** C8, amended. For the same snapshot, pair and threshold, two invocations
    on any two bots in any two worlds return sequences that are equal once
    timestamps are left out; and an invocation changes nothing but the
    number of clock readings made: the bot, the configuration file and the
    trace stay as they were. *)
Theorem detector_deterministic_up_to_timestamps
    (b1 b2 : ArbitrageBot) (w1 w2 : World) (prices : dict float) (pair : TradingPair) :
  exists l1 l2,
    find_arbitrage_opportunities prices pair (mkState b1 w1) =
      (Ok l1, mkState b1 (advance (length l1) w1)) /\
    find_arbitrage_opportunities prices pair
        (mkState (set_threshold (threshold b1) b2) w2) =
      (Ok l2, mkState (set_threshold (threshold b1) b2) (advance (length l2) w2)) /\
    map untimed l1 = map untimed l2.
Proof.
  rewrite !find_run. cbn [bot world set_threshold threshold]. do 2 eexists.
  split; [ | split ].
  - unfold with_world. cbn [bot world]. do 3 f_equal.
    rewrite (Permutation_length (sorted_reverse_perm _ _)). now rewrite stamp_length.
  - unfold with_world. cbn [bot world]. do 3 f_equal.
    rewrite (Permutation_length (sorted_reverse_perm _ _)). now rewrite stamp_length.
  - apply Forall2_untimed.
    apply sorted_reverse_Forall2; [ intros a c' H; unfold untimed in H; congruence | ].
    apply stamp_untimed.
    eapply List.Forall_impl; [ | apply candidates_sound ].
    intros c Hc t. now destruct (Hc t).
Qed.

(** X1. A snapshot with fewer than two prices yields the empty sequence, and
    the state is not touched at all. *)
Theorem detector_needs_two_prices
    (s : state) (prices : dict float) (pair : TradingPair) :
  (length prices < 2)%nat ->
  find_arbitrage_opportunities prices pair s = (Ok [], s).
Proof.
  intros H. unfold find_arbitrage_opportunities.
  now rewrite (proj2 (Nat.ltb_lt _ _) H).
Qed.

Lemma detector_needs_two_prices_witness :
  (length [("X"%string, 100%float)] < 2)%nat /\
  find_arbitrage_opportunities [("X"%string, 100%float)] weth_usdc
    (mkState bot_one_percent idle_world) =
  (Ok [], mkState bot_one_percent idle_world).
Proof.
  assert (H : (length [("X"%string, 100%float)] < 2)%nat) by (cbn; lia).
  split; [ exact H | exact (detector_needs_two_prices _ _ _ H) ].
Defined.

End DetectorSpec.

(** ** Total correctness of monadic code *)

Module MonadFacts.

(** [c], started in [s], ends normally, with a value and a state that
    satisfy [Q]. *)
Definition returns {S A} (c : M S A) (s : S) (Q : A -> S -> Prop) : Prop :=
  exists a s', c s = (Ok a, s') /\ Q a s'.

Lemma returns_ret {S A} (a : A) (s : S) (Q : A -> S -> Prop) :
  Q a s -> returns (mret a) s Q.
Proof. intros H. exists a, s. split; [ reflexivity | exact H ]. Qed.

Lemma returns_bind {S A B} (c : M S A) (k : A -> M S B) (s : S) (Q : B -> S -> Prop) :
  returns c s (fun a s1 => returns (k a) s1 Q) -> returns (c ≫= k) s Q.
Proof.
  intros (a & s1 & Hc & b & s2 & Hk & HQ). exists b, s2. split; [ | exact HQ ].
  unfold mbind, M_bind. now rewrite Hc.
Qed.

Lemma returns_gets {S A} (f : S -> A) (s : S) (Q : A -> S -> Prop) :
  Q (f s) s -> returns (gets f) s Q.
Proof. intros H. exists (f s), s. split; [ reflexivity | exact H ]. Qed.

Lemma returns_modify {S} (f : S -> S) (s : S) (Q : unit -> S -> Prop) :
  Q tt (f s) -> returns (modify f) s Q.
Proof. intros H. exists tt, (f s). split; [ reflexivity | exact H ]. Qed.

Lemma returns_weaken {S A} (c : M S A) (s : S) (Q Q' : A -> S -> Prop) :
  returns c s Q -> (forall a s', Q a s' -> Q' a s') -> returns c s Q'.
Proof. intros (a & s' & Hc & HQ) H. exists a, s'. auto. Qed.

(** A [try] whose body ends normally ends as the body does. *)
Lemma returns_try {S A} (body : M S A) (handler : exn -> M S A) (s : S)
    (Q : A -> S -> Prop) :
  returns body s Q -> returns (try_except body handler) s Q.
Proof.
  intros (a & s' & Hc & HQ). exists a, s'. split; [ | exact HQ ].
  unfold try_except. now rewrite Hc.
Qed.

(** A loop whose body keeps the invariant [I], on the loop-carried local and
    the state, and always ends normally. *)
Lemma returns_for_fold {S X Acc} (I : Acc -> S -> Prop) (xs : list X) (acc : Acc)
    (body : X -> Acc -> M S Acc) (s : S) :
  I acc s ->
  (forall x acc s, In x xs -> I acc s -> returns (body x acc) s I) ->
  returns (for_fold xs acc body) s I.
Proof.
  intros Hs Hbody. revert acc s Hs.
  induction xs as [|x xs IH]; intros acc s Hs; cbn [for_fold].
  - now apply returns_ret.
  - apply returns_bind. eapply returns_weaken; [ apply Hbody; [ now left | exact Hs ] | ].
    intros acc' s' Hs'. apply IH; [ | exact Hs' ].
    intros y acc0 s0 Hy. apply Hbody. now right.
Qed.

Lemma returns_for_each_from {S X} (I : list X -> S -> Prop) (xs : list X)
    (body : X -> M S unit) :
  (forall seen x s, I seen s -> returns (body x) s (fun _ s' => I (seen ++ [x]) s')) ->
  forall seen s, I seen s ->
  returns (for_each xs body) s (fun _ s' => I (seen ++ xs) s').
Proof.
  intros Hbody. induction xs as [|x xs IH]; intros seen s Hs; cbn [for_each].
  - apply returns_ret. now rewrite app_nil_r.
  - apply returns_bind. eapply returns_weaken; [ apply Hbody, Hs | ].
    intros u s' Hs'. cbn beta in *. eapply returns_weaken; [ apply IH, Hs' | ].
    intros u' s'' H. cbn beta in *. now rewrite <- app_assoc in H.
Qed.

(** A loop whose body always ends normally, with an invariant indexed by
    the elements already visited. *)
Lemma returns_for_each {S X} (I : list X -> S -> Prop) (xs : list X)
    (body : X -> M S unit) (s : S) :
  I [] s ->
  (forall seen x s, I seen s -> returns (body x) s (fun _ s' => I (seen ++ [x]) s')) ->
  returns (for_each xs body) s (fun _ s' => I xs s').
Proof. intros Hs Hbody. exact (returns_for_each_from I xs body Hbody [] s Hs). Qed.

End MonadFacts.

(** ** The monitoring cycle *)

Module MonitorSpec.
Import monitorbot PyFloatFacts SortedFacts DetectorFacts MonadFacts.

(** The pair an event gives a verdict on, for the three events that close
    the evaluation of a pair. *)
Definition verdict_of (e : event) : option string :=
  match e with
  | Found best _ => Some (pair_name best)
  | NoOpportunities p => Some p
  | NoPrices p => Some p
  | _ => None
  end.

Definition verdicts (events : list event) : list string := omap verdict_of events.

(** From [s] to [s'] the bot is the same and the trace grew by [new]. *)
Definition emits (s s' : state) (new : list event) : Prop :=
  bot s' = bot s /\ trace (world s') = trace (world s) ++ new.

Lemma emits_refl (s : state) : emits s s [].
Proof. split; [ reflexivity | now rewrite app_nil_r ]. Qed.

Lemma emits_trans (s1 s2 s3 : state) (n1 n2 : list event) :
  emits s1 s2 n1 -> emits s2 s3 n2 -> emits s1 s3 (n1 ++ n2).
Proof.
  intros [B1 T1] [B2 T2]. split; [ congruence | ].
  now rewrite T2, T1, app_assoc.
Qed.

Lemma emits_log (e : event) (s : state) : emits s (with_world (emit e) s) [e].
Proof. split; reflexivity. Qed.

Lemma emits_tick (s : state) : emits s (with_world tick s) [].
Proof. split; [ reflexivity | cbn; now rewrite app_nil_r ]. Qed.

Lemma emits_advance (n : nat) (s : state) : emits s (with_world (advance n) s) [].
Proof. split; [ reflexivity | cbn; now rewrite app_nil_r ]. Qed.

Lemma verdicts_app (l1 l2 : list event) : verdicts (l1 ++ l2) = verdicts l1 ++ verdicts l2.
Proof. apply omap_app. Qed.

(** [send_slack_notification] never raises and gives no verdict. *)
Lemma send_slack_notification_returns (message : notice) (color : string) (s : state) :
  returns (send_slack_notification message color) s
          (fun _ s' => exists new, emits s s' new /\ verdicts new = []).
Proof.
  unfold send_slack_notification. apply returns_bind, returns_gets.
  destruct (negb (webhook_configured (bot s)) || negb (notification_enabled (bot s))).
  - apply returns_ret. exists []. split; [ apply emits_refl | reflexivity ].
  - eexists tt, _. split; [ reflexivity | ].
    exists [SlackPost message color (now (world s) (ticks (world s)))].
    split; [ | reflexivity ].
    exact (emits_trans _ _ _ [] _ (emits_tick s) (emits_log _ _)).
Qed.

(** What holds of a snapshot under construction: every key is a configured
    exchange with a known adapter, every price is above zero, no key is
    repeated. *)
Definition snapshot_ok (b : ArbitrageBot) (prices : dict float) : Prop :=
  Forall (fun entry => In (fst entry) (exchanges b) /\
                       known_exchange (fst entry) = true /\
                       fgt (snd entry) 0 = true) prices /\
  NoDup (dict_keys prices).

Lemma dict_set_keys {V} (d : dict V) (k : string) (v : V) :
  dict_keys (dict_set d k v) =
  if existsb (String.eqb k) (dict_keys d) then dict_keys d else dict_keys d ++ [k].
Proof.
  unfold dict_keys. induction d as [|[k' v'] d IH]; cbn; [ reflexivity | ].
  rewrite (String.eqb_sym k k'). destruct (String.eqb k' k); [ reflexivity | ].
  cbn. rewrite IH. now destruct (existsb _ _).
Qed.

Lemma dict_set_Forall {V} (P : string * V -> Prop) (d : dict V) (k : string) (v : V) :
  Forall P d -> P (k, v) -> Forall P (dict_set d k v).
Proof.
  intros Hd Hk. induction Hd as [|[k' v'] d Hx Hd IH]; cbn.
  - now repeat constructor.
  - destruct (String.eqb_spec k' k) as [-> | N]; constructor; auto.
Qed.

Lemma snapshot_ok_set (b : ArbitrageBot) (prices : dict float) (k : string) (p : float) :
  snapshot_ok b prices -> In k (exchanges b) -> known_exchange k = true ->
  fgt p 0 = true -> snapshot_ok b (dict_set prices k p).
Proof.
  intros [Hall Hnd] Hin Hk Hp. split.
  - apply dict_set_Forall; auto.
  - rewrite dict_set_keys. destruct (existsb (String.eqb k) (dict_keys prices)) eqn:E;
      [ exact Hnd | ].
    apply NoDup_app. split; [ exact Hnd | ]. split; [ | apply NoDup_singleton ].
    intros x Hx Hk'. apply list_elem_of_In in Hx. apply list_elem_of_In in Hk'.
    destruct Hk' as [<- | []].
    assert (existsb (String.eqb k) (dict_keys prices) = true); [ | congruence ].
    apply existsb_exists. exists k. split; [ exact Hx | apply String.eqb_refl ].
Qed.

(** One exchange of [get_prices]: a failing adapter is logged, not raised. *)
Lemma get_prices_step_returns (s0 : state) (pair : TradingPair) (name : string)
    (prices : dict float) (s : state) :
  In name (exchanges (bot s0)) -> snapshot_ok (bot s0) prices ->
  returns (get_prices_step pair name prices) s
          (fun prices' s' => snapshot_ok (bot s0) prices' /\
                             exists new, emits s s' new /\ verdicts new = []).
Proof.
  intros Hin Hok. unfold get_prices_step.
  destruct (known_exchange name) eqn:Hk;
    [ | apply returns_ret; split; [ exact Hok | ];
        exists []; split; [ apply emits_refl | reflexivity ] ].
  unfold returns, try_except, mbind, M_bind, api_get_price.
  destruct (adapters (world s) name (base pair) (quote pair)) as [p | | e].
  - destruct (truthy p && fgt p 0) eqn:Hp; eexists _, s; (split; [ reflexivity | ]);
      (split; [ | exists []; split; [ apply emits_refl | reflexivity ] ]).
    + apply andb_prop in Hp as [_ Hp]. now apply snapshot_ok_set.
    + exact Hok.
  - eexists _, s. split; [ reflexivity | ]. split; [ exact Hok | ].
    exists []. split; [ apply emits_refl | reflexivity ].
  - eexists _, _. split; [ reflexivity | ]. split; [ exact Hok | ].
    exists [PriceError name e]. split; [ apply emits_log | reflexivity ].
Qed.

Lemma get_prices_returns (pair : TradingPair) (s : state) :
  returns (get_prices pair) s
          (fun prices s' => snapshot_ok (bot s) prices /\
                            exists new, emits s s' new /\ verdicts new = []).
Proof.
  unfold get_prices. apply returns_bind, returns_gets.
  apply (returns_for_fold
           (fun prices s' => snapshot_ok (bot s) prices /\
                             exists new, emits s s' new /\ verdicts new = [])).
  - split; [ split; constructor | ].
    exists []. split; [ apply emits_refl | reflexivity ].
  - intros name prices s1 Hin (Hok & n1 & E1 & V1).
    eapply returns_weaken; [ now apply (get_prices_step_returns s) | ].
    intros prices' s2 (Hok' & n2 & E2 & V2). split; [ exact Hok' | ].
    exists (n1 ++ n2).
    split; [ exact (emits_trans _ _ _ _ _ E1 E2) | ].
    now rewrite verdicts_app, V1, V2.
Qed.

(** Two exchanges, three pairs; every price lookup for WBTC/USDC throws. *)
Definition flaky_adapters (exchange_name b q : string) : reply :=
  if String.eqb b "WBTC" then Fails (CollaboratorError "timeout")
  else if String.eqb exchange_name "uniswap" then Quote 100
  else Quote 102.

Definition three_pairs : state :=
  mkState
    (mkBot ["uniswap"; "sushiswap"]
           [mkPair "WETH" "USDC" (AmountFloat 1);
            mkPair "WBTC" "USDC" (AmountFloat 1);
            mkPair "LINK" "USDC" (AmountFloat 1)]
           1 1000 true true None)
    (mkWorld (fun _ => "2024-01-01T00:00:00") 0 flaky_adapters None true []).

(** The same bot after a stop command. *)
Definition paused : state :=
  mkState
    (mkBot ["uniswap"; "sushiswap"]
           [mkPair "WETH" "USDC" (AmountFloat 1);
            mkPair "WBTC" "USDC" (AmountFloat 1);
            mkPair "LINK" "USDC" (AmountFloat 1)]
           1 1000 false true None)
    (mkWorld (fun _ => "2024-01-01T00:00:00") 0 flaky_adapters None true []).

(** How the trace of a cycle reads, opportunities left out. *)
Definition outline (e : event) : string :=
  match e with
  | Checking p => String.append "checking " p
  | PriceError x _ => String.append "price error " x
  | Found best _ => String.append "found " (pair_name best)
  | NoOpportunities p => String.append "none " p
  | NoPrices p => String.append "no prices " p
  | CycleError _ => "cycle error"
  | SlackPost _ _ _ => "post"
  | MonitoringStarting => "starting"
  | Sleep 60 => "sleep 60"
  | Sleep _ => "sleep"
  | _ => "config"
  end.

(** The lookups of the second pair throw; the first and the third pair are
    evaluated all the same, and the cycle ends with its normal sleep. *)
Example three_pairs_one_throws :
  fst (monitor_cycle three_pairs) = Ok tt /\
  map outline (trace (world (snd (monitor_cycle three_pairs)))) =
  ["checking WETH/USDC"; "found WETH/USDC";
   "checking WBTC/USDC"; "price error uniswap"; "price error sushiswap";
   "no prices WBTC/USDC";
   "checking LINK/USDC"; "found LINK/USDC";
   "sleep 60"].
Proof. vm_compute. split; reflexivity. Qed.

(** X2. [get_prices] never raises, whatever the adapters do, and leaves the
    bot as it is; the snapshot it returns holds only configured exchanges
    with a known adapter, each of them once, with prices above zero. *)
Theorem get_prices_snapshot (pair : TradingPair) (s : state) :
  exists prices s',
    get_prices pair s = (Ok prices, s') /\
    bot s' = bot s /\
    snapshot_ok (bot s) prices.
Proof.
  destruct (get_prices_returns pair s) as (prices & s' & Hrun & Hok & new & [Hb _] & _).
  exists prices, s'. auto.
Qed.

(** X3. With monitoring switched off, [monitor_pairs] writes its starting
    line to the log and finds the loop condition false: the loop ends there,
    nothing is scanned, and nothing else of the state changes. *)
Theorem monitor_pairs_halts_when_disabled (fuel : nat) (s : state) :
  monitoring_enabled (bot s) = false ->
  monitor_pairs (S fuel) s = (Ok Stopped, with_world (emit MonitoringStarting) s).
Proof.
  intros H. unfold monitor_pairs, log, mbind, M_bind, modify. cbn [monitor_loop].
  unfold mbind, M_bind, gets. cbn [with_world bot]. now rewrite H.
Qed.

Lemma monitor_pairs_halts_when_disabled_witness :
  monitoring_enabled (bot paused) = false /\
  monitor_pairs 5 paused = (Ok Stopped, with_world (emit MonitoringStarting) paused).
Proof.
  assert (H : monitoring_enabled (bot paused) = false) by reflexivity.
  split; [ exact H | exact (monitor_pairs_halts_when_disabled 4 paused H) ].
Defined.

End MonitorSpec.

(** ** The configuration setters *)

Module ConfigSpec.
Import monitorbot PyFloatFacts.

(** The state after [ArbitrageBot.update_threshold t]. *)
Definition after_update_threshold (t : float) (s : state) : state :=
  let b := set_threshold t (bot s) in
  let w := tick (world s) in
  let stamp := now (world s) (ticks (world s)) in
  if disk_writable (world s) then
    mkState b
      (emit (ThresholdUpdated t)
         (emit ConfigSaved
            (write_config
               (mkConfig (pairs b) t (max_loan_amount b) (monitoring_enabled b)
                         (notification_enabled b) stamp) w)))
  else mkState b (emit (ThresholdUpdated t) (emit ConfigSaveError w)).

(** A bot with threshold 1.0 and an empty, writable configuration store. *)
Definition fresh : state :=
  mkState
    (mkBot ["uniswap"; "sushiswap"] [mkPair "WETH" "USDC" (AmountFloat 1)]
           1 1000 true true None)
    (mkWorld (fun _ => "2024-01-01T00:00:00") 0 (fun _ _ _ => NoQuote) None true []).

(** The setter of the bot takes any float. *)
Lemma update_threshold_run (t : float) (s : state) :
  monitorbot.update_threshold t s = (Ok tt, after_update_threshold t s).
Proof.
  unfold monitorbot.update_threshold, after_update_threshold, save_config.
  unfold mbind, M_bind, modify, gets, datetime_now, log. cbn.
  destruct (disk_writable (world s)); reflexivity.
Qed.

Lemma split_without_separator (sep : ascii) (text : string) :
  contains sep text = false -> split sep text = [text].
Proof.
  induction text as [|c rest IH]; cbn; [ reflexivity | ].
  destruct (Ascii.eqb c sep); [ discriminate | ]. cbn.
  intros H. now rewrite (IH H).
Qed.

Lemma TradingPair_init_error (args : list string) (e : exn) :
  TradingPair_init args = Raise e -> e = TypeError.
Proof.
  destruct args as [|a [|b [|c [|d rest]]]]; cbn; congruence.
Qed.

Lemma comprehension_raises {X Y} (f : X -> result Y) (xs : list X) (e : exn) :
  Exists (fun x => f x = Raise e) xs ->
  (forall x e', f x = Raise e' -> e' = e) ->
  comprehension f xs = Raise e.
Proof.
  intros H Honly. induction H as [x xs Hx | x xs _ IH]; cbn.
  - now rewrite Hx.
  - destruct (f x) as [y|e'] eqn:E; [ now rewrite IH | ].
    now rewrite (Honly _ _ E).
Qed.

(** C3, at the failing input. [ArbitrageBot.update_threshold(-1)] raises
    nothing: the threshold becomes -1 and, when the store is writable, -1 is
    what gets persisted.  The Slack handler, in contrast, refuses -1 and
    leaves the state as it was. *)
Theorem update_threshold_accepts_minus_one (s : state) :
  exists s',
    monitorbot.update_threshold (-1) s = (Ok tt, s') /\
    threshold (bot s') = (-1)%float /\
    (if disk_writable (world s)
     then option_map cfg_threshold (config_file (world s')) = Some (-1)%float
     else config_file (world s') = config_file (world s)) /\
    slack_bot.update_threshold (-1) s = (Ok slack_bot.MustBePositive, s).
Proof.
  exists (after_update_threshold (-1) s).
  split; [ apply update_threshold_run | ].
  unfold after_update_threshold.
  destruct (disk_writable (world s)); repeat split; reflexivity.
Qed.

(** The test of the repository calls the setter with -1 on a running bot. *)
Example update_threshold_minus_one_on_fresh :
  let s' := snd (monitorbot.update_threshold (-1) fresh) in
  fst (monitorbot.update_threshold (-1) fresh) = Ok tt /\
  threshold (bot fresh) = 1%float /\
  threshold (bot s') = (-1)%float.
Proof. vm_compute. repeat split; reflexivity. Qed.

(** X4. The Slack handler refuses every threshold [<= 0] with its
    "must be greater than 0" answer and leaves the whole state unchanged. *)
Lemma slack_update_threshold_rejects_nonpositive (s : state) (t : float) :
  (t <=? 0)%float = true ->
  slack_bot.update_threshold t s = (Ok slack_bot.MustBePositive, s).
Proof. intros H. unfold slack_bot.update_threshold. now rewrite H. Qed.

Lemma slack_update_threshold_rejects_nonpositive_witness :
  (-1 <=? 0)%float = true /\
  slack_bot.update_threshold (-1) fresh = (Ok slack_bot.MustBePositive, fresh).
Proof.
  assert (H : (-1 <=? 0)%float = true) by reflexivity.
  split; [ exact H | exact (slack_update_threshold_rejects_nonpositive fresh (-1)%float H) ].
Defined.

(** X5. The Slack handler refuses every threshold above 50, infinity
    included, with its "too high" answer, and leaves the whole state
    unchanged. *)
Lemma slack_update_threshold_rejects_above_50 (s : state) (t : float) :
  fgt t 50 = true ->
  slack_bot.update_threshold t s = (Ok slack_bot.TooHigh, s).
Proof.
  intros H. unfold slack_bot.update_threshold. rewrite H.
  destruct (t <=? 0)%float eqn:L; [ | reflexivity ].
  unfold fgt in H. apply ltb_leb in H.
  pose proof (leb_trans _ _ _ H L) as Habs. vm_compute in Habs. discriminate.
Qed.

Lemma slack_update_threshold_rejects_above_50_witness :
  fgt infinity 50 = true /\
  slack_bot.update_threshold infinity fresh = (Ok slack_bot.TooHigh, fresh).
Proof.
  assert (H : fgt infinity 50 = true) by reflexivity.
  split; [ exact H | exact (slack_update_threshold_rejects_above_50 fresh infinity H) ].
Defined.

(** A threshold inside the range is accepted, stored and persisted. *)
Example slack_update_threshold_accepts_2_5 :
  let r := slack_bot.update_threshold 2.5 fresh in
  fst r = Ok (slack_bot.Updated 2.5) /\
  threshold (bot (snd r)) = 2.5%float /\
  option_map cfg_threshold (config_file (world (snd r))) = Some 2.5%float.
Proof. vm_compute. repeat split; reflexivity. Qed.

(** C10, at the failing input. The Slack handler lets NaN through both of
    its range checks: the command is answered as a successful update and NaN
    becomes the bot's threshold, although NaN does not lie in (0, 50]. *)
Theorem slack_update_threshold_accepts_nan (s : state) :
  exists s',
    slack_bot.update_threshold nan s = (Ok (slack_bot.Updated nan), s') /\
    threshold (bot s') = nan /\
    fgt nan 0 = false /\ (nan <=? 50)%float = false.
Proof.
  unfold slack_bot.update_threshold.
  change (nan <=? 0)%float with false. change (fgt nan 50) with false. cbn match.
  unfold mbind, M_bind. rewrite update_threshold_run.
  destruct (send_slack_notification (ThresholdNotice nan) "good"
              (after_update_threshold nan s)) as [r s'] eqn:E.
  unfold send_slack_notification, mbind, M_bind, gets, datetime_now, log, modify in E.
  assert (Hb : bot (after_update_threshold nan s) = set_threshold nan (bot s)).
  { unfold after_update_threshold. now destruct (disk_writable (world s)). }
  destruct (negb (webhook_configured (bot (after_update_threshold nan s))) ||
            negb (notification_enabled (bot (after_update_threshold nan s))));
    injection E as <- <-; eexists; (split; [ reflexivity | ]);
    cbn [bot with_world]; rewrite Hb; repeat split; reflexivity.
Qed.

(** C9. When some new pair string has no '/' in it, [update_trading_pairs]
    raises (a TypeError from the constructor of TradingPair) before anything
    is assigned: the bot's pairs, the configuration file and everything else
    in the state are exactly as before. *)
Theorem update_trading_pairs_atomic (s : state) (new_pairs : list string) :
  Exists (fun text => contains slash text = false) new_pairs ->
  update_trading_pairs new_pairs s = (Raise TypeError, s).
Proof.
  intros H. unfold update_trading_pairs, mbind, M_bind, lift.
  rewrite (comprehension_raises _ new_pairs TypeError); [ reflexivity | | ].
  - eapply List.Exists_impl; [ | exact H ].
    intros text Ht. cbn beta in *. now rewrite (split_without_separator _ _ Ht).
  - intros text e. apply TradingPair_init_error.
Qed.

(** The call of the repository's own test, [update_trading_pairs(['INVALID_PAIR'])]. *)
Lemma update_trading_pairs_atomic_witness :
  Exists (fun text => contains slash text = false) ["INVALID_PAIR"%string] /\
  update_trading_pairs ["INVALID_PAIR"%string] fresh = (Raise TypeError, fresh).
Proof.
  assert (H : Exists (fun text => contains slash text = false) ["INVALID_PAIR"%string])
    by (constructor; reflexivity).
  split; [ exact H | exact (update_trading_pairs_atomic fresh _ H) ].
Defined.

(** A well-formed list replaces the pairs and is persisted. *)
Example update_trading_pairs_accepts :
  let s' := snd (update_trading_pairs ["ETH/USDC"; "BTC/USDC"]%string fresh) in
  map TradingPair_str (pairs (bot s')) = ["ETH/USDC"; "BTC/USDC"]%string /\
  option_map (fun c => map TradingPair_str (cfg_pairs c)) (config_file (world s')) =
    Some ["ETH/USDC"; "BTC/USDC"]%string.
Proof. vm_compute. split; reflexivity. Qed.

End ConfigSpec.

(** ** Decimal order *)

Module PyDecimalFacts.

Definition zero : decimal := Dec 0 0.

Lemma dec_compare_refl (a : decimal) : dec_compare a a = Eq.
Proof. unfold dec_compare. apply Z.compare_refl. Qed.

Lemma dec_compare_antisym (a b : decimal) :
  dec_compare b a = CompOpp (dec_compare a b).
Proof. unfold dec_compare. rewrite (Z.min_comm (expo b)). apply Z.compare_antisym. Qed.

Lemma dec_leb_refl (a : decimal) : dec_leb a a = true.
Proof. unfold dec_leb. now rewrite dec_compare_refl. Qed.

Lemma dec_ltb_false_leb (a b : decimal) : dec_ltb b a = false -> dec_leb a b = true.
Proof.
  unfold dec_ltb, dec_leb. rewrite (dec_compare_antisym a b).
  destruct (dec_compare a b); cbn; congruence.
Qed.

Lemma dec_min_le_r (a b : decimal) : dec_leb (dec_min a b) b = true.
Proof.
  unfold dec_min. destruct (dec_ltb b a) eqn:L.
  - apply dec_leb_refl.
  - now apply dec_ltb_false_leb.
Qed.

Lemma scale_pos (a : decimal) (e : Z) : e <= expo a -> 0 < 10 ^ (expo a - e).
Proof. intros H. apply Z.pow_pos_nonneg; lia. Qed.

(** A decimal is above zero exactly when its coefficient is. *)
Lemma dec_pos_coef (a : decimal) : dec_ltb zero a = (0 <? coef a).
Proof.
  unfold dec_ltb, dec_compare, align, zero. cbn [coef expo].
  rewrite Z.mul_0_l.
  pose proof (scale_pos a (Z.min 0 (expo a)) ltac:(lia)) as Hp.
  destruct (Z.ltb_spec 0 (coef a)) as [H | H].
  - assert (0 < coef a * 10 ^ (expo a - Z.min 0 (expo a))) by nia.
    now rewrite (proj2 (Z.compare_lt_iff _ _)).
  - assert (coef a * 10 ^ (expo a - Z.min 0 (expo a)) <= 0) by nia.
    destruct (Z.compare_spec 0 (coef a * 10 ^ (expo a - Z.min 0 (expo a))));
      try reflexivity; lia.
Qed.

(** Anything above a positive decimal is positive. *)
Lemma dec_ltb_pos_trans (a b : decimal) :
  dec_ltb zero a = true -> dec_ltb a b = true -> dec_ltb zero b = true.
Proof.
  rewrite !dec_pos_coef. intros Ha. apply Z.ltb_lt in Ha.
  unfold dec_ltb, dec_compare, align.
  set (e := Z.min (expo a) (expo b)).
  pose proof (scale_pos a e ltac:(lia)) as Hpa.
  pose proof (scale_pos b e ltac:(lia)) as Hpb.
  destruct (Z.compare_spec (coef a * 10 ^ (expo a - e)) (coef b * 10 ^ (expo b - e)));
    try discriminate.
  intros _. apply Z.ltb_lt. nia.
Qed.

(** *** Rounding by the context *)

Lemma ndigits_fuel_le (fuel : nat) :
  forall n k, 1 <= k -> n < 10 ^ k -> ndigits_fuel fuel n <= k.
Proof.
  induction fuel as [|fuel IH]; intros n k Hk Hn; cbn [ndigits_fuel]; [ lia | ].
  destruct (Z.ltb_spec n 10) as [_ | Hge]; [ lia | ].
  assert (Hk2 : 2 <= k).
  { destruct (Z.eq_dec k 1) as [-> | ]; [ | lia ]. change (10 ^ 1) with 10 in Hn. lia. }
  assert (Hdiv : n / 10 < 10 ^ (k - 1)).
  { apply Z.div_lt_upper_bound; [ lia | ].
    replace k with (1 + (k - 1)) in Hn by lia.
    rewrite Z.pow_add_r in Hn by lia. exact Hn. }
  specialize (IH (n / 10) (k - 1) ltac:(lia) Hdiv). lia.
Qed.

Lemma ndigits_le (n k : Z) : 1 <= k -> n < 10 ^ k -> ndigits n <= k.
Proof. apply ndigits_fuel_le. Qed.

(** A decimal the context leaves as it is: at most 28 digits, and an
    exponent between [Etiny] and [Etop]. *)
Definition fits (d : decimal) : Prop :=
  Z.abs (coef d) < 10 ^ prec /\ Etiny <= expo d <= Etop.

Lemma fix_fits (d : decimal) : fits d -> fix_ d = Ok d.
Proof.
  intros [Hc He]. destruct d as [c e]. cbn [coef expo] in *. unfold fix_. cbn [coef expo].
  unfold Etiny, Etop, Emax, Emin, prec in *.
  destruct (Z.eqb_spec c 0) as [-> | Hnz].
  - f_equal. f_equal. lia.
  - pose proof (ndigits_le (Z.abs c) 28 ltac:(lia) Hc) as Hn.
    destruct (Z.ltb_spec (999999 - 28 + 1) (ndigits (Z.abs c) + e - 28)); [ lia | ].
    destruct (Z.ltb_spec e (Z.max (ndigits (Z.abs c) + e - 28) (-999999 - 28 + 1)));
      [ lia | reflexivity ].
Qed.

(** The only exception of the arithmetic is [Overflow]. *)
Lemma fix_raises (d : decimal) (e : exn) : fix_ d = Raise e -> e = Overflow.
Proof.
  unfold fix_.
  repeat match goal with
         | |- context [if ?b then _ else _] => destruct b
         end; congruence.
Qed.

Lemma align_split (a : decimal) (m e : Z) :
  e <= m -> m <= expo a -> align a e = align a m * 10 ^ (m - e).
Proof.
  intros H1 H2. unfold align.
  replace (expo a - e) with ((expo a - m) + (m - e)) by lia.
  rewrite Z.pow_add_r by lia. ring.
Qed.

(** Two decimals can be compared at any exponent below both of theirs. *)
Lemma dec_compare_at (a b : decimal) (e : Z) :
  e <= expo a -> e <= expo b ->
  dec_compare a b = (align a e ?= align b e).
Proof.
  intros Ha Hb. unfold dec_compare.
  set (m := Z.min (expo a) (expo b)).
  rewrite (align_split a m e), (align_split b m e) by lia.
  assert (Hp : 0 < 10 ^ (m - e)) by (apply Z.pow_pos_nonneg; lia).
  destruct (Z.compare_spec (align a m) (align b m)) as [E | L | G]; symmetry.
  - rewrite E. apply Z.compare_refl.
  - apply Z.compare_lt_iff. nia.
  - apply Z.compare_gt_iff. nia.
Qed.

Lemma align_sub (a b : decimal) (e : Z) :
  e <= expo a -> e <= expo b ->
  align (exact_sub a b) e = align a e - align b e.
Proof.
  intros Ha Hb.
  set (m := Z.min (expo a) (expo b)).
  rewrite (align_split a m e), (align_split b m e) by lia.
  unfold exact_sub. fold m. unfold align at 1. cbn [coef expo]. ring.
Qed.

Lemma dec_nonneg_coef (a : decimal) : dec_leb zero a = (0 <=? coef a).
Proof.
  unfold dec_leb. rewrite (dec_compare_at zero a (Z.min 0 (expo a))) by (cbn; lia).
  unfold align, zero. cbn [coef expo]. rewrite Z.mul_0_l.
  pose proof (scale_pos a (Z.min 0 (expo a)) ltac:(lia)) as Hp.
  destruct (Z.leb_spec 0 (coef a)) as [H | H];
    destruct (Z.compare_spec 0 (coef a * 10 ^ (expo a - Z.min 0 (expo a))));
    try reflexivity; nia.
Qed.

Lemma dec_compare_zero_r (a : decimal) (e : Z) :
  dec_compare a (Dec 0 e) = (coef a ?= 0).
Proof.
  unfold dec_compare, align. cbn [coef expo]. rewrite Z.mul_0_l.
  pose proof (scale_pos a (Z.min (expo a) e) ltac:(lia)) as Hp.
  destruct (Z.compare_spec (coef a) 0) as [-> | L | G].
  - reflexivity.
  - apply Z.compare_lt_iff. nia.
  - apply Z.compare_gt_iff. nia.
Qed.

Lemma align_nonneg (a : decimal) (e : Z) : 0 <= coef a -> 0 <= align a e.
Proof.
  intros H. unfold align. apply Z.mul_nonneg_nonneg; [ exact H | ].
  apply Z.pow_nonneg. lia.
Qed.

(** [d] has at most [places] decimal places and, counted in units of
    [10 ^ - places], is below [bound] in absolute value. *)
Definition within (bound places : Z) (d : decimal) : Prop :=
  - places <= expo d <= Etop /\ Z.abs (align d (- places)) < bound.

(** [|d| < 10 ^ units], with at most [places] decimal places. *)
Definition plain (units places : Z) (d : decimal) : Prop :=
  - places <= expo d <= units /\ Z.abs (align d (- places)) < 10 ^ (units + places).

Lemma plain_within (units places : Z) (d : decimal) :
  units <= Etop -> plain units places d -> within (10 ^ (units + places)) places d.
Proof. intros H [He Hb]. split; [ lia | exact Hb ]. Qed.

Lemma within_rescale (bound places places' : Z) (d : decimal) :
  places <= places' -> within bound places d ->
  within (bound * 10 ^ (places' - places)) places' d.
Proof.
  intros H [He Hb]. split; [ lia | ].
  rewrite (align_split d (- places) (- places')) by lia.
  replace (- places - - places') with (places' - places) by lia.
  assert (Hp : 0 < 10 ^ (places' - places)) by (apply Z.pow_pos_nonneg; lia).
  rewrite Z.abs_mul, (Z.abs_eq (10 ^ _)) by lia. nia.
Qed.

Lemma within_sub (b1 b2 places : Z) (x y : decimal) :
  within b1 places x -> within b2 places y -> within (b1 + b2) places (exact_sub x y).
Proof.
  intros [Hex Hbx] [Hey Hby]. split; [ cbn [exact_sub expo]; lia | ].
  rewrite align_sub by lia. lia.
Qed.

Lemma within_mul (bound places k j : Z) (d : decimal) :
  0 <= k -> 0 <= j -> within bound places d ->
  within (k * bound + 1) (places + j) (exact_mul d (Dec k (- j))).
Proof.
  intros Hk Hj [He Hb]. split; [ cbn [exact_mul expo]; lia | ].
  unfold align in *. cbn [exact_mul coef expo].
  replace (expo d + - j - - (places + j)) with (expo d - - places) by lia.
  replace (coef d * k * 10 ^ (expo d - - places))
    with (k * (coef d * 10 ^ (expo d - - places))) by ring.
  rewrite Z.abs_mul, (Z.abs_eq k) by lia. nia.
Qed.

Lemma within_fits (bound places : Z) (d : decimal) :
  within bound places d -> bound <= 10 ^ prec -> places <= - Etiny -> fits d.
Proof.
  intros [He Hb] Hbound Hp. split; [ | lia ].
  unfold align in Hb.
  assert (Hpow : 1 <= 10 ^ (expo d - - places)).
  { change 1 with (Z.succ 0). apply Z.le_succ_l, Z.pow_pos_nonneg; lia. }
  rewrite Z.abs_mul, (Z.abs_eq (10 ^ _)) in Hb by lia.
  pose proof (Z.abs_nonneg (coef d)). nia.
Qed.

End PyDecimalFacts.

(** ** The flash-loan estimator *)

Module FlashloanSpec.
Import flashloan_bot PyDecimalFacts.

(** The gas-price collaborator is unreachable: the integration was never set
    up, or its [get_gas_price] raises. *)
Definition gas_oracle_fails (self : FlashLoanBot) : Prop :=
  match contract_integration self with
  | None => True
  | Some c => exists e, get_gas_price c = Raise e
  end.

(** A bot as [__init__] leaves it, and one with a node that reports a gas
    price of 4000 gwei, so that 500000 gas cost 2.0 ether. *)
Definition unconnected : FlashLoanBot :=
  mkFlashLoanBot None (Dec 1 (-2)) (Dec 1000 0).

Definition connected : FlashLoanBot :=
  mkFlashLoanBot (Some (mkContract (Ok 4000000000000))) (Dec 1 (-2)) (Dec 1000 0).

Definition unreachable : FlashLoanBot :=
  mkFlashLoanBot (Some (mkContract (Raise (CollaboratorError "connection refused"))))
                 (Dec 1 (-2)) (Dec 1000 0).

(** Scenario C of the specification: an opportunity whose only numeric entry
    is profit_percentage 5.0; and the same with a flat profit entry of 50.0. *)
Definition scenario_C : gmap string pyval :=
  {[ "profit_percentage" := Numeric (Dec 50 (-1)) ]}.

Definition scenario_C_flat : gmap string pyval :=
  {[ "profit" := Numeric (Dec 500 (-1)) ]}.

Definition zero_amount : gmap string pyval :=
  {[ "amount" := Numeric (Dec 0 0) ]}.

Lemma estimate_gas_cost_total (self : FlashLoanBot) :
  exists gas_cost, estimate_gas_cost self = Ok gas_cost.
Proof.
  unfold estimate_gas_cost.
  destruct (contract_integration self) as [[[price|e]]|]; cbn; eauto.
  destruct (fromWei_ether (price * 500000)); eauto.
Qed.

(** C1, as stated, fails on scenario C. The sizing policy gives the loan
    1000 and the gas estimate is 2.0 ether, as in the scenario; the method
    as written raises a TypeError (its loan amount is a coroutine that was
    never awaited), and with the loan amount 1000 bound as a Decimal it
    returns -2.9, not 47.1: profit_percentage is never read. *)
Lemma scenario_C_is_not_47_1 :
  await (calculate_optimal_loan_amount connected scenario_C) = Ok (Dec 1000 0) /\
  option_map (dec_eqb (Dec 20 (-1)))
    (match estimate_gas_cost connected with Ok g => Some g | Raise _ => None end)
    = Some true /\
  calculate_flashloan_profit connected scenario_C = Raise TypeError /\
  exists net,
    net_profit_from connected scenario_C (ObjDecimal (Dec 1000 0)) = Ok net /\
    dec_eqb net (Dec (-29) (-1)) = true /\
    dec_eqb net (Dec 471 (-1)) = false.
Proof.
  repeat split; try (vm_compute; reflexivity).
  eexists. repeat split; vm_compute; reflexivity.
Qed.

(** In the range where every step is exact, the statements of
    [calculate_flashloan_profit] compute the exact formula. *)
Lemma net_profit_exact (self : FlashLoanBot) (opportunity : gmap string pyval)
    (profit loan_amount gas_cost : decimal) :
  Decimal_of_str (get opportunity "profit" (Numeric (Dec 0 0))) = Ok profit ->
  estimate_gas_cost self = Ok gas_cost ->
  plain 9 8 profit -> plain 9 8 loan_amount -> plain 9 18 gas_cost ->
  net_profit_from self opportunity (ObjDecimal loan_amount) =
  Ok (exact_sub (exact_sub profit (exact_mul loan_amount (Dec 9 (-4)))) gas_cost).
Proof.
  intros Hp Hg Bp Bl Bg.
  apply plain_within in Bp, Bl, Bg; try (unfold Etop, Emax, prec; lia).
  assert (Bfee : within (9 * 10 ^ (9 + 8) + 1) (8 + 4)
                        (exact_mul loan_amount flashloan_fee_rate))
    by exact (within_mul _ _ 9 4 _ ltac:(lia) ltac:(lia) Bl).
  pose proof (within_sub _ _ _ _ _ (within_rescale _ 8 (8 + 4) _ ltac:(lia) Bp) Bfee)
    as Bgross.
  pose proof (within_sub _ _ _ _ _ (within_rescale _ (8 + 4) 18 _ ltac:(lia) Bgross) Bg)
    as Bnet.
  unfold net_profit_from. rewrite Hp. cbn [mbind result_bind py_mul].
  unfold dec_mul.
  rewrite (fix_fits _ (within_fits _ _ _ Bfee ltac:(vm_compute; discriminate)
                                       ltac:(vm_compute; discriminate))).
  cbn [mbind result_bind]. rewrite Hg. cbn [mbind result_bind py_sub]. unfold dec_sub.
  rewrite (fix_fits _ (within_fits _ _ _ Bgross ltac:(vm_compute; discriminate)
                                         ltac:(vm_compute; discriminate))).
  cbn [mbind result_bind py_sub]. unfold dec_sub.
  rewrite (fix_fits _ (within_fits _ _ _ Bnet ltac:(vm_compute; discriminate)
                                       ltac:(vm_compute; discriminate))).
  reflexivity.
Qed.

(** C1, amended. With a Decimal bound to the loan amount, the net profit is
    profit - loan_amount * 0.0009 - gas_cost, where profit is the
    opportunity's own 'profit' entry (0 when it has none), 0.0009 is the
    fixed fee rate and gas_cost is what the gas estimator returns (it always
    returns).  The three operations are Decimal operations, each rounding
    its result to 28 significant digits: the result is that number exactly
    when profit and loan amount are below 10^9 in absolute value with at
    most 8 decimal places and the gas cost is below 10^9 with at most 18. *)
Theorem net_profit_formula (self : FlashLoanBot) (opportunity : gmap string pyval)
    (profit loan_amount : decimal) :
  Decimal_of_str (get opportunity "profit" (Numeric (Dec 0 0))) = Ok profit ->
  plain 9 8 profit -> plain 9 8 loan_amount ->
  exists gas_cost,
    estimate_gas_cost self = Ok gas_cost /\
    (plain 9 18 gas_cost ->
     net_profit_from self opportunity (ObjDecimal loan_amount) =
     Ok (exact_sub (exact_sub profit (exact_mul loan_amount (Dec 9 (-4)))) gas_cost)).
Proof.
  intros Hp Bp Bl. destruct (estimate_gas_cost_total self) as [gas_cost Hg].
  exists gas_cost. split; [ exact Hg | ].
  intros Bg. now apply net_profit_exact.
Qed.

Lemma plain_example (units places c e : Z) :
  (- places <=? e) && (e <=? units) &&
  (Z.abs (c * 10 ^ (e - - places)) <? 10 ^ (units + places)) = true ->
  plain units places (Dec c e).
Proof.
  intros H. apply andb_prop in H as [H H3]. apply andb_prop in H as [H1 H2].
  apply Z.leb_le in H1, H2. apply Z.ltb_lt in H3. split; [ cbn; lia | exact H3 ].
Qed.

(** Scenario C with a flat profit of 50.0: loan 1000, gas 2 ether. *)
Lemma net_profit_formula_witness :
  Decimal_of_str (get scenario_C_flat "profit" (Numeric (Dec 0 0))) = Ok (Dec 500 (-1)) /\
  plain 9 8 (Dec 500 (-1)) /\ plain 9 8 (Dec 1000 0) /\
  exists gas_cost,
    estimate_gas_cost connected = Ok gas_cost /\
    (plain 9 18 gas_cost ->
     net_profit_from connected scenario_C_flat (ObjDecimal (Dec 1000 0)) =
     Ok (exact_sub (exact_sub (Dec 500 (-1)) (exact_mul (Dec 1000 0) (Dec 9 (-4))))
                   gas_cost)).
Proof.
  assert (H : Decimal_of_str (get scenario_C_flat "profit" (Numeric (Dec 0 0)))
              = Ok (Dec 500 (-1))) by reflexivity.
  assert (Bp : plain 9 8 (Dec 500 (-1))) by (apply plain_example; reflexivity).
  assert (Bl : plain 9 8 (Dec 1000 0)) by (apply plain_example; reflexivity).
  split; [ exact H | split; [ exact Bp | split; [ exact Bl | ] ] ].
  exact (net_profit_formula connected scenario_C_flat (Dec 500 (-1)) (Dec 1000 0) H Bp Bl).
Defined.

(** Beyond 28 digits the operations round: a profit of 29 digits less a fee
    of 0.9 comes out above the profit. *)
Example net_profit_is_rounded :
  let profit := Dec 12345678901234567890123456789 0 in
  dec_sub profit (Dec 9 (-1)) = Ok (Dec 1234567890123456789012345679 1) /\
  dec_ltb profit (Dec 1234567890123456789012345679 1) = true.
Proof. vm_compute. split; reflexivity. Qed.

(** With the flat profit 50.0 the formula does give 47.1. *)
Example scenario_C_flat_is_47_1 :
  option_map (dec_eqb (Dec 471 (-1)))
    (match net_profit_from connected scenario_C_flat (ObjDecimal (Dec 1000 0)) with
     | Ok net => Some net
     | Raise _ => None
     end) = Some true.
Proof. vm_compute. reflexivity. Qed.

(** X6. As written, [calculate_flashloan_profit] never returns a value: its
    loan amount is the coroutine object of a call that is not awaited, and
    multiplying it by the fee rate is a TypeError (an InvalidOperation comes
    first when the 'profit' entry is not numeric). *)
Theorem calculate_flashloan_profit_never_returns
    (self : FlashLoanBot) (opportunity : gmap string pyval) :
  calculate_flashloan_profit self opportunity =
  match Decimal_of_str (get opportunity "profit" (Numeric (Dec 0 0))) with
  | Ok _ => Raise TypeError
  | Raise e => Raise e
  end.
Proof.
  unfold calculate_flashloan_profit, net_profit_from.
  now destruct (Decimal_of_str _).
Qed.

(** C5, as stated, fails: an opportunity with amount 0 and the maximum loan
    1000 is sized to 0, which is not above 0. *)
Lemma zero_amount_gives_zero_loan :
  dec_ltb zero (max_loan_amount unconnected) = true /\
  await (calculate_optimal_loan_amount unconnected zero_amount) = Ok (Dec 0 0) /\
  dec_ltb zero (Dec 0 0) = false.
Proof. repeat split; vm_compute; reflexivity. Qed.

(** The sizing either raises [Overflow] or returns a loan that is at most
    the maximum. *)
Lemma optimal_loan_outcome (self : FlashLoanBot) (opportunity : gmap string pyval)
    (base_amount profit_rate : decimal) :
  Decimal_of_str (get opportunity "amount" (Numeric (Dec 100 0))) = Ok base_amount ->
  Decimal_of_str (get opportunity "profit_rate" (Numeric (Dec 1 (-2)))) = Ok profit_rate ->
  optimal_loan self opportunity = Raise Overflow \/
  exists loan_amount,
    optimal_loan self opportunity = Ok loan_amount /\
    dec_leb loan_amount (max_loan_amount self) = true.
Proof.
  intros Ha Hr. unfold optimal_loan. rewrite Ha, Hr. cbn [mbind result_bind].
  destruct (dec_mul base_amount (Dec 10 0)) as [scaled | e] eqn:E; cbn [mbind result_bind].
  - right. eexists. split; [ reflexivity | apply dec_min_le_r ].
  - left. unfold dec_mul in E. now rewrite (fix_raises _ _ E).
Qed.

(** C5, amended. For a positive maximum and an opportunity whose 'amount'
    and 'profit_rate' entries are absent or numeric, the awaited sizing
    either raises Overflow (amount * 10 is above the largest Decimal of the
    context) or returns a loan that is at most the maximum.  When the amount
    has at most 27 digits and an exponent between Etiny = -1000026 and
    Etop = 999972, so that amount * 10 is exact, it returns
    min(amount * 10, max_loan_amount) (amount 100 when absent), and that
    loan is above 0 exactly when the amount is. *)
Theorem loan_amount_bounds (self : FlashLoanBot) (opportunity : gmap string pyval)
    (base_amount profit_rate : decimal) :
  Decimal_of_str (get opportunity "amount" (Numeric (Dec 100 0))) = Ok base_amount ->
  Decimal_of_str (get opportunity "profit_rate" (Numeric (Dec 1 (-2)))) = Ok profit_rate ->
  dec_ltb zero (max_loan_amount self) = true ->
  (await (calculate_optimal_loan_amount self opportunity) = Raise Overflow \/
   exists loan_amount,
     await (calculate_optimal_loan_amount self opportunity) = Ok loan_amount /\
     dec_leb loan_amount (max_loan_amount self) = true) /\
  (Z.abs (coef base_amount) < 10 ^ 27 ->
   Etiny <= expo base_amount <= Etop ->
   exists loan_amount,
     await (calculate_optimal_loan_amount self opportunity) = Ok loan_amount /\
     loan_amount = dec_min (exact_mul base_amount (Dec 10 0)) (max_loan_amount self) /\
     dec_leb loan_amount (max_loan_amount self) = true /\
     dec_ltb zero loan_amount = dec_ltb zero base_amount).
Proof.
  intros Ha Hr Hmax. split.
  { cbn [await calculate_optimal_loan_amount]. now apply (optimal_loan_outcome _ _ _ _ Ha Hr). }
  intros Hdigits Hexp.
  assert (Hfit : fits (exact_mul base_amount (Dec 10 0))).
  { split; cbn [exact_mul coef expo]; [ | lia ].
    rewrite Z.abs_mul. change (Z.abs 10) with 10.
    change (10 ^ prec) with (10 ^ 27 * 10). lia. }
  eexists. split; [ | split; [ reflexivity | split ] ].
  - cbn [await calculate_optimal_loan_amount]. unfold optimal_loan.
    rewrite Ha, Hr. cbn [mbind result_bind]. unfold dec_mul.
    rewrite (fix_fits _ Hfit). reflexivity.
  - apply dec_min_le_r.
  - assert (Hten : dec_ltb zero (exact_mul base_amount (Dec 10 0))
                   = dec_ltb zero base_amount).
    { rewrite !dec_pos_coef. cbn [exact_mul coef].
      destruct (Z.ltb_spec 0 (coef base_amount)), (Z.ltb_spec 0 (coef base_amount * 10));
        try reflexivity; lia. }
    unfold dec_min.
    destruct (dec_ltb (max_loan_amount self) (exact_mul base_amount (Dec 10 0))) eqn:L;
      [ | exact Hten ].
    rewrite Hmax. symmetry. rewrite <- Hten.
    exact (dec_ltb_pos_trans _ _ Hmax L).
Qed.

(** An opportunity as the detector builds it has no 'amount' entry: the
    amount is 100, the loan min(1000, 1000) = 1000. *)
Lemma loan_amount_bounds_witness :
  Decimal_of_str (get scenario_C "amount" (Numeric (Dec 100 0))) = Ok (Dec 100 0) /\
  Decimal_of_str (get scenario_C "profit_rate" (Numeric (Dec 1 (-2)))) = Ok (Dec 1 (-2)) /\
  dec_ltb zero (max_loan_amount connected) = true /\
  Z.abs (coef (Dec 100 0)) < 10 ^ 27 /\
  Etiny <= expo (Dec 100 0) <= Etop /\
  exists loan_amount,
    await (calculate_optimal_loan_amount connected scenario_C) = Ok loan_amount /\
    loan_amount = dec_min (exact_mul (Dec 100 0) (Dec 10 0)) (max_loan_amount connected) /\
    dec_leb loan_amount (max_loan_amount connected) = true /\
    dec_ltb zero loan_amount = dec_ltb zero (Dec 100 0).
Proof.
  assert (Ha : Decimal_of_str (get scenario_C "amount" (Numeric (Dec 100 0)))
               = Ok (Dec 100 0)) by reflexivity.
  assert (Hr : Decimal_of_str (get scenario_C "profit_rate" (Numeric (Dec 1 (-2))))
               = Ok (Dec 1 (-2))) by reflexivity.
  assert (Hm : dec_ltb zero (max_loan_amount connected) = true) by reflexivity.
  assert (Hd : Z.abs (coef (Dec 100 0)) < 10 ^ 27) by (vm_compute; reflexivity).
  assert (He : Etiny <= expo (Dec 100 0) <= Etop) by (vm_compute; split; discriminate).
  repeat (split; [ assumption | ]).
  exact (proj2 (loan_amount_bounds connected scenario_C (Dec 100 0) (Dec 1 (-2)) Ha Hr Hm)
               Hd He).
Defined.

(** Outside that range: a positive amount below the smallest Decimal of the
    context is sized to zero, and an amount at the top of the range makes
    the sizing raise. *)
Example loan_amount_underflow_and_overflow :
  await (calculate_optimal_loan_amount unconnected
           {[ "amount" := Numeric (Dec 1 (-1000030)) ]}) = Ok (Dec 0 (-1000026)) /\
  await (calculate_optimal_loan_amount unconnected
           {[ "amount" := Numeric (Dec 1 999999) ]}) = Raise Overflow.
Proof.
  split; [ | vm_compute; reflexivity ].
  cbn [await calculate_optimal_loan_amount]. unfold optimal_loan.
  replace (Decimal_of_str (get _ "amount" _)) with (Ok (Dec 1 (-1000030)))
    by reflexivity.
  replace (Decimal_of_str (get _ "profit_rate" _)) with (Ok (Dec 1 (-2)))
    by reflexivity.
  cbn [mbind result_bind].
  replace (dec_mul (Dec 1 (-1000030)) (Dec 10 0)) with (Ok (Dec 0 (-1000026)))
    by (vm_compute; reflexivity).
  cbn [mbind result_bind mret result_ret]. unfold dec_min, dec_ltb.
  now rewrite dec_compare_zero_r.
Qed.

(** C7. When the gas-price collaborator fails, [estimate_gas_cost] does not
    raise: it returns the fixed fallback Decimal("0.01"), which is above 0. *)
Theorem estimate_gas_cost_fallback (self : FlashLoanBot) :
  gas_oracle_fails self ->
  estimate_gas_cost self = Ok (Dec 1 (-2)) /\
  dec_ltb zero (Dec 1 (-2)) = true.
Proof.
  unfold gas_oracle_fails, estimate_gas_cost. intros H.
  split; [ | reflexivity ].
  destruct (contract_integration self) as [c|]; [ | reflexivity ].
  destruct H as [e He]. cbn. now rewrite He.
Qed.

(** A node that refuses the connection. *)
Lemma estimate_gas_cost_fallback_witness :
  gas_oracle_fails unreachable /\
  estimate_gas_cost unreachable = Ok (Dec 1 (-2)) /\
  dec_ltb zero (Dec 1 (-2)) = true.
Proof.
  assert (H : gas_oracle_fails unreachable) by (cbn; eauto).
  split; [ exact H | exact (estimate_gas_cost_fallback unreachable H) ].
Defined.

(** Without any integration the lookup of the method fails, with the same
    outcome; with a node that answers, the estimate is its price times
    500000 gas. *)
Example estimate_gas_cost_examples :
  estimate_gas_cost unconnected = Ok (Dec 1 (-2)) /\
  estimate_gas_cost connected = Ok (Dec 2 0).
Proof. split; reflexivity. Qed.

End FlashloanSpec.

(** ** Persisting and loading the configuration *)

Module PersistenceSpec.
Import monitorbot monitorbot_config.

(** What a bot has configured, and what the configuration file holds. *)
Definition settings (b : ArbitrageBot)
  : list TradingPair * float * float * bool * bool :=
  (pairs b, threshold b, max_loan_amount b, monitoring_enabled b,
   notification_enabled b).

Definition persisted (s : state)
  : option (list TradingPair * float * float * bool * bool) :=
  option_map
    (fun c => (cfg_pairs c, cfg_threshold c, cfg_max_loan_amount c,
               cfg_monitoring_enabled c, cfg_notification_enabled c))
    (config_file (world s)).

(** The file holds exactly what the bot has configured. *)
Definition in_sync (s : state) : Prop := persisted s = Some (settings (bot s)).

(** The state [save_config] leaves. *)
Definition after_save (s : state) : state :=
  let b := bot s in
  let w := tick (world s) in
  if disk_writable (world s) then
    mkState b
      (emit ConfigSaved
         (write_config
            (mkConfig (pairs b) (threshold b) (max_loan_amount b)
                      (monitoring_enabled b) (notification_enabled b)
                      (now (world s) (ticks (world s)))) w))
  else mkState b (emit ConfigSaveError w).

(** A bot whose first pair trades 5 units, with a configuration on disk. *)
Definition five_units : state :=
  after_save
    (mkState
       (mkBot ["uniswap"; "sushiswap"] [mkPair "WETH" "USDC" (AmountFloat 5)]
              2.5 150 true true (Some "https://hooks.example/T000"%string))
       (mkWorld (fun _ => "2024-01-01T00:00:00") 0 (fun _ _ _ => NoQuote) None true [])).

Lemma save_config_run (s : state) : save_config s = (Ok tt, after_save s).
Proof.
  unfold save_config, after_save, mbind, M_bind, modify, gets, datetime_now, log. cbn.
  destruct (disk_writable (world s)); reflexivity.
Qed.

Lemma after_save_bot (s : state) : bot (after_save s) = bot s.
Proof. unfold after_save. now destruct (disk_writable (world s)). Qed.

Lemma after_save_in_sync (s : state) :
  disk_writable (world s) = true -> in_sync (after_save s).
Proof. intros H. unfold in_sync, persisted, after_save. now rewrite H. Qed.

Lemma in_bot_run {A} (c : M state A) (x : session) (r : result A) (s' : state) :
  c (inner x) = (r, s') -> in_bot c x = (r, mkSession s' (notes x)).
Proof. intros H. unfold in_bot. now rewrite H. Qed.

Lemma comprehension_entries (ps : list TradingPair) :
  comprehension pair_of_entry (map entry_of ps) = Ok ps.
Proof.
  induction ps as [|[b q a] ps IH]; cbn; [ reflexivity | ]. now rewrite IH.
Qed.

(** X7. On a writable store every setter changes its own field of the bot
    and nothing else, and leaves the configuration file in step with the
    bot. *)
Theorem setters_persist (x : session) (t a : float) (m n : bool) :
  disk_writable (world (inner x)) = true ->
  (let s' := snd (monitorbot.update_threshold t (inner x)) in
   bot s' = set_threshold t (bot (inner x)) /\ in_sync s') /\
  (let s' := inner (snd (update_max_loan a x)) in
   bot s' = set_max_loan_amount a (bot (inner x)) /\ in_sync s') /\
  (let s' := inner (snd (toggle_monitoring m x)) in
   bot s' = set_monitoring_enabled m (bot (inner x)) /\ in_sync s') /\
  (let s' := inner (snd (toggle_notifications n x)) in
   bot s' = set_notification_enabled n (bot (inner x)) /\ in_sync s').
Proof.
  intros W. destruct x as [[b w] ns]. cbn [inner world] in W.
  unfold monitorbot.update_threshold, update_max_loan, toggle_monitoring,
    toggle_notifications, in_bot, say, mbind, M_bind, modify, gets. cbn [inner].
  rewrite !save_config_run. unfold after_save, with_bot. cbn [bot world inner snd].
  rewrite W. unfold in_sync, persisted, settings, log, modify. cbn.
  repeat split; reflexivity.
Qed.

Lemma setters_persist_witness :
  disk_writable (world (inner (mkSession five_units []))) = true /\
  (let s' := snd (monitorbot.update_threshold 3.5 (inner (mkSession five_units []))) in
   bot s' = set_threshold 3.5 (bot (inner (mkSession five_units []))) /\ in_sync s') /\
  (let s' := inner (snd (update_max_loan 150 (mkSession five_units []))) in
   bot s' = set_max_loan_amount 150 (bot (inner (mkSession five_units []))) /\ in_sync s') /\
  (let s' := inner (snd (toggle_monitoring false (mkSession five_units []))) in
   bot s' = set_monitoring_enabled false (bot (inner (mkSession five_units []))) /\
   in_sync s') /\
  (let s' := inner (snd (toggle_notifications false (mkSession five_units []))) in
   bot s' = set_notification_enabled false (bot (inner (mkSession five_units []))) /\
   in_sync s').
Proof.
  assert (H : disk_writable (world (inner (mkSession five_units []))) = true)
    by reflexivity.
  split; [ exact H | ].
  exact (setters_persist (mkSession five_units []) 3.5%float 150%float false false H).
Defined.

(** A store that refuses the write: the setter still changes the bot, the
    file keeps its old content, and nothing is raised. *)
Example failed_save_is_silent :
  let s := mkState (bot five_units)
             (mkWorld (now (world five_units)) 1 (adapters (world five_units))
                      (config_file (world five_units)) false []) in
  let r := monitorbot.update_threshold 9 s in
  fst r = Ok tt /\
  threshold (bot (snd r)) = 9%float /\
  option_map cfg_threshold (config_file (world (snd r))) = Some 2.5%float.
Proof. vm_compute. repeat split; reflexivity. Qed.

(** Loading a document all of whose pair entries are complete. *)
Lemma load_stored_run (c : config) (x : session) :
  load_document (stored_document c) x =
  (Ok tt,
   mkSession
     (mkState
        (mkBot (exchanges (bot (inner x))) (cfg_pairs c) (cfg_threshold c)
               (cfg_max_loan_amount c) (cfg_monitoring_enabled c)
               (cfg_notification_enabled c) (slack_webhook (bot (inner x))))
        (world (inner x)))
     (notes x ++ [(length (trace (world (inner x))), ConfigLoaded)])).
Proof.
  unfold load_document, try_except, mbind, M_bind, in_bot, apply_document, say.
  unfold mbind, M_bind, lift, modify, gets, stored_document.
  cbn [doc_pairs default]. unfold id.
  rewrite comprehension_entries. destruct x as [[b w] ns]. reflexivity.
Qed.

(** X8. A bot constructed while the file holds what another bot has
    configured, with MAX_LOAN_AMOUNT unset or a number, takes over that
    bot's pairs, threshold, maximum loan and both switches, whatever its own
    constructor arguments are; only the exchange list and the webhook are
    its own, and nothing in the world changes.  With a MAX_LOAN_AMOUNT that
    is not a number, the constructor raises ValueError. *)
Theorem new_bot_takes_over_saved_configuration
    (s : state) (exchange_names : list string) (ps : list TradingPair)
    (limit : float) (env_max_loan : env_number) (env_webhook : option string) :
  in_sync s ->
  match env_max_loan with
  | EnvNotANumber =>
      ArbitrageBot_init exchange_names ps limit env_max_loan env_webhook (world s)
      = Raise ValueError
  | _ =>
      exists x,
        ArbitrageBot_init exchange_names ps limit env_max_loan env_webhook (world s)
        = Ok x /\
        settings (bot (inner x)) = settings (bot s) /\
        exchanges (bot (inner x)) = exchange_names /\
        slack_webhook (bot (inner x)) = env_webhook /\
        world (inner x) = world s
  end.
Proof.
  unfold in_sync, persisted. intros H.
  destruct (config_file (world s)) as [c|] eqn:E; [ | discriminate ].
  cbn in H. injection H as H1 H2 H3 H4 H5.
  destruct env_max_loan as [ | value | ]; [ | | reflexivity ];
    unfold ArbitrageBot_init, float_of_env, load_config, mbind, M_bind, in_bot, gets;
    cbn [inner world]; rewrite E; cbn iota; rewrite load_stored_run;
    unfold say, modify, with_bot; cbn [inner bot world notes];
    (eexists; split; [ reflexivity | ]);
    cbn [inner bot world]; unfold settings, set_slack_webhook; cbn;
    repeat split; try reflexivity; congruence.
Qed.

Lemma new_bot_takes_over_saved_configuration_witness :
  in_sync five_units /\
  exists x,
    ArbitrageBot_init ["uniswap"%string] [mkPair "WBTC" "USDC" (AmountFloat 1)]
                      1 EnvUnset None (world five_units) = Ok x /\
    settings (bot (inner x)) = settings (bot five_units) /\
    exchanges (bot (inner x)) = ["uniswap"%string] /\
    slack_webhook (bot (inner x)) = None /\
    world (inner x) = world five_units.
Proof.
  assert (H : in_sync five_units) by reflexivity.
  split; [ exact H | ].
  exact (new_bot_takes_over_saved_configuration five_units ["uniswap"%string]
           [mkPair "WBTC" "USDC" (AmountFloat 1)] 1%float EnvUnset None H).
Defined.

(** Without a file the constructor arguments stand, the maximal loan being
    1000.0 when the variable is not set. *)
Example new_bot_without_file :
  option_map (fun x => settings (bot (inner x)))
    (match ArbitrageBot_init ["uniswap"%string] [mkPair "WBTC" "USDC" (AmountFloat 1)]
             2 EnvUnset None
             (mkWorld (fun _ => "2024-01-01T00:00:00") 0 (fun _ _ _ => NoQuote)
                      None true [])
     with Ok x => Some x | Raise _ => None end)
  = Some ([mkPair "WBTC" "USDC" (AmountFloat 1)], 2%float, 1000%float, true, true).
Proof. vm_compute. reflexivity. Qed.

(** X9. Loading is all or nothing: when an entry of the document's 'pairs'
    lacks its 'base' or its 'quote', [load_config] swallows the KeyError,
    notes the failure, and leaves the bot and the world exactly as they
    were, the other keys of the document unread. *)
Theorem load_document_malformed_changes_nothing
    (d : document) (entries : list pair_entry) (x : session) :
  doc_pairs d = Some entries ->
  Exists (fun p => pair_of_entry p = Raise KeyError) entries ->
  load_document d x =
  (Ok tt,
   mkSession (inner x)
     (notes x ++ [(length (trace (world (inner x))), ConfigLoadError KeyError)])).
Proof.
  intros Hd Hbad.
  unfold load_document, try_except, mbind, M_bind, in_bot, apply_document.
  unfold mbind, M_bind, lift. rewrite Hd. cbn [default]. unfold id.
  rewrite (ConfigSpec.comprehension_raises pair_of_entry entries KeyError Hbad).
  - reflexivity.
  - intros p e. unfold pair_of_entry.
    destruct (entry_base p), (entry_quote p); congruence.
Qed.

Lemma load_document_malformed_changes_nothing_witness :
  doc_pairs (mkDocument (Some [mkEntry (Some "WETH"%string) None None])
                        (Some 9%float) None (Some false) None) =
    Some [mkEntry (Some "WETH"%string) None None] /\
  Exists (fun p => pair_of_entry p = Raise KeyError)
         [mkEntry (Some "WETH"%string) None None] /\
  load_document (mkDocument (Some [mkEntry (Some "WETH"%string) None None])
                            (Some 9%float) None (Some false) None)
                (mkSession five_units []) =
  (Ok tt,
   mkSession (inner (mkSession five_units []))
     (notes (mkSession five_units []) ++
      [(length (trace (world (inner (mkSession five_units [])))),
        ConfigLoadError KeyError)])).
Proof.
  assert (Hd : doc_pairs (mkDocument (Some [mkEntry (Some "WETH"%string) None None])
                                     (Some 9%float) None (Some false) None) =
               Some [mkEntry (Some "WETH"%string) None None]) by reflexivity.
  assert (Hbad : Exists (fun p => pair_of_entry p = Raise KeyError)
                        [mkEntry (Some "WETH"%string) None None])
    by (constructor; reflexivity).
  split; [ exact Hd | split; [ exact Hbad | ] ].
  exact (load_document_malformed_changes_nothing _ _ (mkSession five_units []) Hd Hbad).
Defined.

(** A document without the key 'pairs' empties the list of pairs, and one
    without the two switches turns both on; a missing threshold or maximum
    loan keeps the current value. *)
Example load_empty_document :
  settings (bot (inner (snd (load_document (mkDocument None None None None None)
                                           (mkSession
                                              (mkState (set_monitoring_enabled false
                                                          (bot five_units))
                                                       (world five_units)) []))))) =
  ([], 2.5%float, 150%float, true, true).
Proof. vm_compute. reflexivity. Qed.

End PersistenceSpec.

(** ** Pair names *)

Module PairNameFacts.
Import monitorbot monitorbot_config PersistenceSpec.

(** How often [sep] occurs in [s]. *)
Fixpoint occurrences (sep : ascii) (s : string) : nat :=
  match s with
  | EmptyString => 0
  | String c rest =>
      if Ascii.eqb c sep then S (occurrences sep rest) else occurrences sep rest
  end.

(** A pair name of the form BASE/QUOTE: exactly one '/'. *)
Definition one_slash (name : string) : bool := Nat.eqb (occurrences slash name) 1.

(** The state [update_trading_pairs] leaves when the new pairs are [ps]. *)
Definition after_update_pairs (ps : list TradingPair) (s : state) : state :=
  with_world (emit (PairsUpdated (map TradingPair_str ps)))
             (after_save (with_bot (set_pairs ps) s)).

Lemma occurrences_none (sep : ascii) (s : string) :
  occurrences sep s = 0%nat -> contains sep s = false.
Proof.
  induction s as [|c rest IH]; cbn; [ reflexivity | ].
  destruct (Ascii.eqb c sep); [ discriminate | exact IH ].
Qed.

(** A string with one separator splits in two parts that give it back. *)
Lemma split_one (sep : ascii) (s : string) :
  occurrences sep s = 1%nat ->
  exists b q, split sep s = [b; q] /\ String.append b (String sep q) = s.
Proof.
  induction s as [|c rest IH]; cbn; [ discriminate | ].
  destruct (Ascii.eqb_spec c sep) as [-> | N].
  - intros [= H]. exists EmptyString, rest.
    now rewrite (ConfigSpec.split_without_separator _ _ (occurrences_none _ _ H)).
  - intros H. destruct (IH H) as (b & q & Hs & Hj).
    exists (String c b), q. rewrite Hs. split; [ reflexivity | ].
    change (String c (String.append b (String sep q)) = String c rest).
    now rewrite Hj.
Qed.

Lemma parse_name (name : string) :
  one_slash name = true ->
  exists p, TradingPair_init (split slash name) = Ok p /\
            TradingPair_str p = name /\ amount p = AmountFloat 1.
Proof.
  unfold one_slash. intros H. apply Nat.eqb_eq in H.
  destruct (split_one _ _ H) as (b & q & Hs & Hj).
  exists (mkPair b q (AmountFloat 1)). rewrite Hs. repeat split. exact Hj.
Qed.

(** A list of well-formed names parses to pairs that carry these names and
    the default amount. *)
Lemma parse_names (names : list string) :
  Forall (fun name => one_slash name = true) names ->
  exists ps,
    comprehension (fun pair => TradingPair_init (split slash pair)) names = Ok ps /\
    map TradingPair_str ps = names /\
    Forall (fun p => amount p = AmountFloat 1) ps.
Proof.
  intros H. induction H as [|name names Hn _ (ps & Hc & Hm & Ha)].
  - exists []. repeat split; constructor.
  - destruct (parse_name _ Hn) as (p & Hp & Hs & Hamount).
    exists (p :: ps). cbn. rewrite Hp, Hc. cbn. rewrite Hs, Hm.
    repeat split. now constructor.
Qed.

Lemma update_trading_pairs_run (names : list string) (ps : list TradingPair) (s : state) :
  comprehension (fun pair => TradingPair_init (split slash pair)) names = Ok ps ->
  update_trading_pairs names s = (Ok tt, after_update_pairs ps s).
Proof.
  intros H. unfold update_trading_pairs, mbind, M_bind, lift. rewrite H.
  unfold modify. rewrite save_config_run. unfold gets, log, modify, after_update_pairs.
  now rewrite after_save_bot.
Qed.

Lemma update_trading_pairs_raises (names : list string) (e : exn) (s : state) :
  comprehension (fun pair => TradingPair_init (split slash pair)) names = Raise e ->
  update_trading_pairs names s = (Raise e, s).
Proof. intros H. unfold update_trading_pairs, mbind, M_bind, lift. now rewrite H. Qed.

Lemma after_update_pairs_bot (ps : list TradingPair) (s : state) :
  bot (after_update_pairs ps s) = set_pairs ps (bot s).
Proof. unfold after_update_pairs. cbn. now rewrite after_save_bot. Qed.

(** X10. Names of the form BASE/QUOTE survive the setter: after
    [update_trading_pairs names], [get_config] lists exactly [names], in the
    same order, when every name has exactly one '/'. *)
Theorem configured_names_round_trip (names : list string) (s : state) :
  Forall (fun name => one_slash name = true) names ->
  exists s' view,
    update_trading_pairs names s = (Ok tt, s') /\
    get_config s' = (Ok view, s') /\
    view_pairs view = names.
Proof.
  intros H. destruct (parse_names names H) as (ps & Hc & Hm & _).
  exists (after_update_pairs ps s). eexists.
  split; [ now apply update_trading_pairs_run | ].
  split; [ reflexivity | ].
  cbn [view_pairs]. now rewrite after_update_pairs_bot.
Qed.

Lemma configured_names_round_trip_witness :
  Forall (fun name => one_slash name = true) ["ETH/USDC"; "BTC/USDC"]%string /\
  exists s' view,
    update_trading_pairs ["ETH/USDC"; "BTC/USDC"]%string five_units = (Ok tt, s') /\
    get_config s' = (Ok view, s') /\
    view_pairs view = ["ETH/USDC"; "BTC/USDC"]%string.
Proof.
  assert (H : Forall (fun name => one_slash name = true) ["ETH/USDC"; "BTC/USDC"]%string)
    by (repeat constructor).
  split; [ exact H | exact (configured_names_round_trip _ five_units H) ].
Defined.

(** A third component does not survive: it lands in the amount, and the
    name that comes back is shorter. *)
Example third_component_is_dropped :
  fst (get_config (snd (update_trading_pairs ["ETH/USDC/7"%string] five_units))) =
  Ok (mkView ["ETH/USDC"%string] 2.5 150 true true ["uniswap"; "sushiswap"]%string).
Proof. vm_compute. reflexivity. Qed.

End PairNameFacts.

(** ** The Slack command handlers *)

Module CommandSpec.
Import monitorbot monitorbot_config slack_commands.
Import PyFloatFacts PersistenceSpec PairNameFacts.

(** The session [post] leaves. *)
Definition after_post (text : post_text) (color : string) (x : session) : session :=
  let b := bot (inner x) in
  if negb (webhook_configured b) || negb (notification_enabled b) then x
  else mkSession (with_world tick (inner x))
                 (notes x ++ [(length (trace (world (inner x))),
                               Posted text color (now (world (inner x))
                                                      (ticks (world (inner x)))))]).

Definition names_of (x : session) : list string :=
  map TradingPair_str (pairs (bot (inner x))).

Lemma post_run (text : post_text) (color : string) (x : session) :
  post text color x = (Ok tt, after_post text color x).
Proof.
  unfold post, after_post, mbind, M_bind, in_bot, gets, say, datetime_now.
  destruct x as [[b w] ns]. cbn.
  destruct (negb (webhook_configured b) || negb (notification_enabled b)); reflexivity.
Qed.

Lemma after_post_bot (text : post_text) (color : string) (x : session) :
  bot (inner (after_post text color x)) = bot (inner x).
Proof.
  unfold after_post.
  now destruct (negb (webhook_configured _) || negb (notification_enabled _)).
Qed.

Lemma after_post_file (text : post_text) (color : string) (x : session) :
  config_file (world (inner (after_post text color x))) = config_file (world (inner x)).
Proof.
  unfold after_post.
  now destruct (negb (webhook_configured _) || negb (notification_enabled _)).
Qed.

Lemma after_post_in_sync (text : post_text) (color : string) (x : session) :
  in_sync (inner x) -> in_sync (inner (after_post text color x)).
Proof.
  unfold in_sync, persisted. now rewrite after_post_bot, after_post_file.
Qed.

Lemma after_update_pairs_in_sync (ps : list TradingPair) (s : state) :
  disk_writable (world s) = true -> in_sync (after_update_pairs ps s).
Proof.
  intros H. unfold after_update_pairs, in_sync, persisted, after_save.
  cbn [with_bot with_world bot world]. now rewrite H.
Qed.

Lemma one_slash_contains (name : string) :
  one_slash name = true -> contains slash name = true.
Proof.
  unfold one_slash. intros H. apply Nat.eqb_eq in H.
  destruct (contains slash name) eqn:E; [ reflexivity | ].
  induction name as [|c rest IH]; cbn in *; [ discriminate | ].
  destruct (Ascii.eqb c slash); [ discriminate | auto ].
Qed.

Lemma member_app (x : string) (l1 l2 : list string) :
  member x (l1 ++ l2) = member x l1 || member x l2.
Proof. apply existsb_app. Qed.

Lemma member_refl (x : string) (l : list string) : member x (l ++ [x]) = true.
Proof. rewrite member_app. cbn. rewrite String.eqb_refl. apply orb_true_r. Qed.

Lemma remove_first_last (x : string) (l : list string) :
  member x l = false -> remove_first x (l ++ [x]) = l.
Proof.
  induction l as [|y l IH]; cbn.
  - now rewrite String.eqb_refl.
  - rewrite (String.eqb_sym x y). destruct (String.eqb y x); [ discriminate | ].
    cbn. intros H. now rewrite IH.
Qed.

(** [add_pair] when the name is new and every name parses. *)
Lemma add_pair_run (pair : string) (ps : list TradingPair) (x : session) :
  contains slash pair = true ->
  member pair (names_of x) = false ->
  comprehension (fun name => TradingPair_init (split slash name))
                (names_of x ++ [pair]) = Ok ps ->
  add_pair pair x =
  (Ok (Added pair),
   after_post (PairAdded pair) "good"
              (mkSession (after_update_pairs ps (inner x)) (notes x))).
Proof.
  intros Hc Hm Hp. unfold add_pair, try_except. rewrite Hc. cbn [negb].
  unfold mbind, M_bind, in_bot at 1, gets. fold (names_of x). rewrite Hm.
  unfold in_bot. rewrite (update_trading_pairs_run _ ps _ Hp).
  now rewrite post_run.
Qed.

(** [remove_pair] when the name is configured and the remaining names parse. *)
Lemma remove_pair_run (pair : string) (ps : list TradingPair) (x : session) :
  member pair (names_of x) = true ->
  comprehension (fun name => TradingPair_init (split slash name))
                (remove_first pair (names_of x)) = Ok ps ->
  remove_pair pair x =
  (Ok (Removed pair),
   after_post (PairRemoved pair) "warning"
              (mkSession (after_update_pairs ps (inner x)) (notes x))).
Proof.
  intros Hm Hp. unfold remove_pair, try_except.
  unfold mbind, M_bind, in_bot at 1, gets. fold (names_of x). rewrite Hm. cbn [negb].
  unfold in_bot. rewrite (update_trading_pairs_run _ ps _ Hp).
  now rewrite post_run.
Qed.

Lemma add_pair_invalid (pair : string) (x : session) :
  contains slash pair = false -> add_pair pair x = (Ok InvalidFormat, x).
Proof. intros Hc. unfold add_pair, try_except. now rewrite Hc. Qed.

Lemma add_pair_exists (pair : string) (x : session) :
  contains slash pair = true -> member pair (names_of x) = true ->
  add_pair pair x = (Ok (AlreadyExists pair), x).
Proof.
  intros Hc Hm. unfold add_pair, try_except. rewrite Hc. cbn [negb].
  unfold mbind, M_bind, in_bot, gets. fold (names_of x). rewrite Hm.
  now destruct x.
Qed.

Lemma add_pair_error (pair : string) (e : exn) (x : session) :
  contains slash pair = true -> member pair (names_of x) = false ->
  comprehension (fun name => TradingPair_init (split slash name))
                (names_of x ++ [pair]) = Raise e ->
  add_pair pair x = (Ok (ErrorAdding e), x).
Proof.
  intros Hc Hm Hp. unfold add_pair, try_except. rewrite Hc. cbn [negb].
  unfold mbind, M_bind, in_bot at 1, gets. fold (names_of x). rewrite Hm.
  unfold in_bot. rewrite (update_trading_pairs_raises _ e _ Hp).
  now destruct x.
Qed.

Lemma remove_pair_not_found (pair : string) (x : session) :
  member pair (names_of x) = false -> remove_pair pair x = (Ok (NotFound pair), x).
Proof.
  intros Hm. unfold remove_pair, try_except.
  unfold mbind, M_bind, in_bot, gets. fold (names_of x). rewrite Hm.
  now destruct x.
Qed.

Lemma remove_pair_error (pair : string) (e : exn) (x : session) :
  member pair (names_of x) = true ->
  comprehension (fun name => TradingPair_init (split slash name))
                (remove_first pair (names_of x)) = Raise e ->
  remove_pair pair x = (Ok (ErrorRemoving e), x).
Proof.
  intros Hm Hp. unfold remove_pair, try_except.
  unfold mbind, M_bind, in_bot at 1, gets. fold (names_of x). rewrite Hm. cbn [negb].
  unfold in_bot. rewrite (update_trading_pairs_raises _ e _ Hp).
  now destruct x.
Qed.

(** X11. [add_pair] and [remove_pair] never raise, and they are all or
    nothing: unless the answer is "Added" (or "Removed"), the bot, the world
    and the notes are exactly as before. *)
Theorem pair_commands_all_or_nothing (pair : string) (x : session) :
  (exists r, fst (add_pair pair x) = Ok r /\
             (r = Added pair \/ snd (add_pair pair x) = x)) /\
  (exists r, fst (remove_pair pair x) = Ok r /\
             (r = Removed pair \/ snd (remove_pair pair x) = x)).
Proof.
  split.
  - destruct (contains slash pair) eqn:Hc;
      [ | rewrite add_pair_invalid by assumption; eauto ].
    destruct (member pair (names_of x)) eqn:Hm;
      [ rewrite add_pair_exists by assumption; eauto | ].
    destruct (comprehension (fun name => TradingPair_init (split slash name))
                            (names_of x ++ [pair])) as [ps|e] eqn:Hp.
    + rewrite (add_pair_run pair ps x Hc Hm Hp). eauto.
    + rewrite (add_pair_error pair e x Hc Hm Hp). eauto.
  - destruct (member pair (names_of x)) eqn:Hm;
      [ | rewrite remove_pair_not_found by assumption; eauto ].
    destruct (comprehension (fun name => TradingPair_init (split slash name))
                            (remove_first pair (names_of x))) as [ps|e] eqn:Hp.
    + rewrite (remove_pair_run pair ps x Hm Hp). eauto.
    + rewrite (remove_pair_error pair e x Hm Hp). eauto.
Qed.

(** A name with three '/' is stopped by the constructor of TradingPair; the
    handler answers with the error and nothing has changed. *)
Example add_pair_with_three_slashes :
  add_pair "A/B/C/D" (mkSession five_units []) =
  (Ok (ErrorAdding TypeError), mkSession five_units []).
Proof. vm_compute. reflexivity. Qed.

(** X12. Adding a new, well-formed pair to a bot whose pair names are all of
    the form BASE/QUOTE answers "Added" and appends the name to the
    configured names; the pairs are rebuilt from their names, so every
    amount, also of the pairs that were there before, is now the default
    1.0; the other settings are untouched, and on a writable store the file
    is in step with the bot. *)
Theorem add_pair_appends_and_resets_amounts (pair : string) (x : session) :
  one_slash pair = true ->
  member pair (names_of x) = false ->
  Forall (fun name => one_slash name = true) (names_of x) ->
  exists x',
    add_pair pair x = (Ok (Added pair), x') /\
    names_of x' = names_of x ++ [pair] /\
    Forall (fun p => amount p = AmountFloat 1) (pairs (bot (inner x'))) /\
    bot (inner x') = set_pairs (pairs (bot (inner x'))) (bot (inner x)) /\
    (disk_writable (world (inner x)) = true -> in_sync (inner x')).
Proof.
  intros Hone Hm Hall.
  assert (Hnames : Forall (fun name => one_slash name = true) (names_of x ++ [pair]))
    by (apply Forall_app; split; [ exact Hall | now repeat constructor ]).
  destruct (parse_names _ Hnames) as (ps & Hp & Hstr & Hamount).
  eexists. split; [ exact (add_pair_run pair ps x (one_slash_contains _ Hone) Hm Hp) | ].
  unfold names_of. rewrite !after_post_bot. cbn [inner].
  rewrite !after_update_pairs_bot. cbn [pairs set_pairs].
  repeat split; try assumption.
  intros W. apply after_post_in_sync. cbn [inner].
  now apply after_update_pairs_in_sync.
Qed.

Lemma add_pair_appends_and_resets_amounts_witness :
  one_slash "LINK/USDC" = true /\
  member "LINK/USDC" (names_of (mkSession five_units [])) = false /\
  Forall (fun name => one_slash name = true) (names_of (mkSession five_units [])) /\
  exists x',
    add_pair "LINK/USDC" (mkSession five_units []) = (Ok (Added "LINK/USDC"), x') /\
    names_of x' = names_of (mkSession five_units []) ++ ["LINK/USDC"%string] /\
    Forall (fun p => amount p = AmountFloat 1) (pairs (bot (inner x'))) /\
    bot (inner x') =
      set_pairs (pairs (bot (inner x'))) (bot (inner (mkSession five_units []))) /\
    (disk_writable (world (inner (mkSession five_units []))) = true ->
     in_sync (inner x')).
Proof.
  assert (H1 : one_slash "LINK/USDC" = true) by reflexivity.
  assert (H2 : member "LINK/USDC" (names_of (mkSession five_units [])) = false)
    by reflexivity.
  assert (H3 : Forall (fun name => one_slash name = true)
                      (names_of (mkSession five_units [])))
    by (repeat constructor).
  split; [ exact H1 | split; [ exact H2 | split; [ exact H3 | ] ] ].
  exact (add_pair_appends_and_resets_amounts "LINK/USDC" (mkSession five_units [])
           H1 H2 H3).
Defined.

(** The pair that traded 5 units trades 1.0 after another pair was added. *)
Example add_pair_resets_five_units :
  map amount (pairs (bot five_units)) = [AmountFloat 5] /\
  map amount (pairs (bot (inner (snd (add_pair "LINK/USDC"
                                        (mkSession five_units []))))))
  = [AmountFloat 1; AmountFloat 1].
Proof. vm_compute. split; reflexivity. Qed.

(** X13. Adding a pair and removing it again gives back the configured
    names: for a new, well-formed name and a bot whose names are all of the
    form BASE/QUOTE, [add_pair] answers "Added", [remove_pair] then answers
    "Removed", and the names are those from before. *)
Theorem add_then_remove_restores_names (pair : string) (x : session) :
  one_slash pair = true ->
  member pair (names_of x) = false ->
  Forall (fun name => one_slash name = true) (names_of x) ->
  exists x1 x2,
    add_pair pair x = (Ok (Added pair), x1) /\
    remove_pair pair x1 = (Ok (Removed pair), x2) /\
    names_of x2 = names_of x.
Proof.
  intros Hone Hm Hall.
  assert (Hnames : Forall (fun name => one_slash name = true) (names_of x ++ [pair]))
    by (apply Forall_app; split; [ exact Hall | now repeat constructor ]).
  destruct (parse_names _ Hnames) as (ps1 & Hp1 & Hstr1 & _).
  destruct (parse_names _ Hall) as (ps2 & Hp2 & Hstr2 & _).
  pose proof (add_pair_run pair ps1 x (one_slash_contains _ Hone) Hm Hp1) as Hadd.
  set (x1 := after_post (PairAdded pair) "good"
                        (mkSession (after_update_pairs ps1 (inner x)) (notes x))) in *.
  assert (Hn1 : names_of x1 = names_of x ++ [pair]).
  { unfold names_of, x1. rewrite after_post_bot. cbn [inner].
    now rewrite after_update_pairs_bot. }
  exists x1. eexists. split; [ exact Hadd | ].
  assert (Hrem : comprehension (fun name => TradingPair_init (split slash name))
                               (remove_first pair (names_of x1)) = Ok ps2)
    by (rewrite Hn1, (remove_first_last _ _ Hm); exact Hp2).
  assert (Hm1 : member pair (names_of x1) = true)
    by (rewrite Hn1; apply member_refl).
  split; [ exact (remove_pair_run pair ps2 x1 Hm1 Hrem) | ].
  unfold names_of at 1. rewrite after_post_bot. cbn [inner].
  now rewrite after_update_pairs_bot.
Qed.

Lemma add_then_remove_restores_names_witness :
  one_slash "LINK/USDC" = true /\
  member "LINK/USDC" (names_of (mkSession five_units [])) = false /\
  Forall (fun name => one_slash name = true) (names_of (mkSession five_units [])) /\
  exists x1 x2,
    add_pair "LINK/USDC" (mkSession five_units []) = (Ok (Added "LINK/USDC"), x1) /\
    remove_pair "LINK/USDC" x1 = (Ok (Removed "LINK/USDC"), x2) /\
    names_of x2 = names_of (mkSession five_units []).
Proof.
  assert (H1 : one_slash "LINK/USDC" = true) by reflexivity.
  assert (H2 : member "LINK/USDC" (names_of (mkSession five_units [])) = false)
    by reflexivity.
  assert (H3 : Forall (fun name => one_slash name = true)
                      (names_of (mkSession five_units [])))
    by (repeat constructor).
  split; [ exact H1 | split; [ exact H2 | split; [ exact H3 | ] ] ].
  exact (add_then_remove_restores_names "LINK/USDC" (mkSession five_units [])
           H1 H2 H3).
Defined.

End CommandSpec.

(** ** The range guards and the switches of the Slack handlers *)

Module ControlSpec.
Import monitorbot monitorbot_config slack_commands.
Import PyFloatFacts PersistenceSpec CommandSpec.

(** The sessions the setters of the bot leave. *)
Definition after_update_max_loan (a : float) (x : session) : session :=
  let s1 := after_save (with_bot (set_max_loan_amount a) (inner x)) in
  mkSession s1 (notes x ++ [(length (trace (world s1)), MaxLoanUpdated a)]).

Definition after_toggle_monitoring (v : bool) (x : session) : session :=
  let s1 := after_save (with_bot (set_monitoring_enabled v) (inner x)) in
  mkSession s1 (notes x ++ [(length (trace (world s1)), MonitoringToggled v)]).


Lemma update_max_loan_run (a : float) (x : session) :
  update_max_loan a x = (Ok tt, after_update_max_loan a x).
Proof.
  unfold update_max_loan, after_update_max_loan, in_bot, say, mbind, M_bind,
    modify, gets. cbn [inner].
  rewrite save_config_run. cbn [inner notes]. now rewrite after_save_bot.
Qed.

Lemma toggle_monitoring_run (v : bool) (x : session) :
  toggle_monitoring v x = (Ok tt, after_toggle_monitoring v x).
Proof.
  unfold toggle_monitoring, after_toggle_monitoring, in_bot, say, mbind, M_bind,
    modify. cbn [inner].
  now rewrite save_config_run.
Qed.


Lemma unordered_leb_l (x y : float) : ~ ordered x -> (x <=? y)%float = false.
Proof.
  intros H. apply not_true_is_false. intros L. apply H. exact (leb_ordered_l _ _ L).
Qed.

Lemma unordered_ltb_r (x y : float) : ~ ordered y -> (x <? y)%float = false.
Proof.
  intros H. apply not_true_is_false. intros L. apply H.
  exact (leb_ordered_r _ _ (ltb_leb _ _ L)).
Qed.

(** What lets a value through the pair of guards [a <= lo] and [a > hi]. *)
Lemma window_guard (lo hi a : float) :
  ordered lo -> ordered hi ->
  ((a <=? lo)%float = false /\ fgt a hi = false) <->
  ((lo <? a)%float = true /\ (a <=? hi)%float = true) \/ ~ ordered a.
Proof.
  intros Hlo Hhi. unfold fgt. split.
  - intros [H1 H2]. destruct (rank a) as [r|] eqn:R.
    + assert (Ha : ordered a) by (unfold ordered; congruence).
      left. split.
      * destruct (lo <? a)%float eqn:L; [ reflexivity | ].
        rewrite (not_ltb_leb _ _ Hlo Ha L) in H1. discriminate.
      * exact (not_ltb_leb _ _ Hhi Ha H2).
    + right. unfold ordered. intros Ha. now apply Ha.
  - intros [[H1 H2] | Ha].
    + split; [ exact (ltb_leb_false _ _ H1) | ].
      destruct (hi <? a)%float eqn:L; [ | reflexivity ].
      rewrite (ltb_leb_false _ _ L) in H2. discriminate.
    + split; [ exact (unordered_leb_l _ _ Ha) | exact (unordered_ltb_r _ _ Ha) ].
Qed.

Lemma ordered_0 : ordered 0.
Proof. unfold ordered. vm_compute. discriminate. Qed.

Lemma ordered_50 : ordered 50.
Proof. unfold ordered. vm_compute. discriminate. Qed.

Lemma ordered_10000 : ordered 10000.
Proof. unfold ordered. vm_compute. discriminate. Qed.

Lemma slack_update_threshold_passes (t : float) (s : state) :
  (t <=? 0)%float = false -> fgt t 50 = false ->
  fst (slack_bot.update_threshold t s) = Ok (slack_bot.Updated t).
Proof.
  intros H1 H2. unfold slack_bot.update_threshold. rewrite H1, H2.
  unfold mbind, M_bind. rewrite ConfigSpec.update_threshold_run.
  unfold send_slack_notification, mbind, M_bind, gets, datetime_now, log, modify.
  now destruct (negb _ || negb _).
Qed.

Lemma update_loan_amount_passes (a : float) (x : session) :
  (a <=? 0)%float = false -> fgt a 10000 = false ->
  update_loan_amount a x =
  (Ok (LoanUpdated a), after_post (MaxLoanNotice a) "good" (after_update_max_loan a x)).
Proof.
  intros H1 H2. unfold update_loan_amount. rewrite H1, H2.
  unfold mbind, M_bind. now rewrite update_max_loan_run, post_run.
Qed.

(** X14. The two range guards of the Slack handlers let through exactly the
    values of their window and NaN: [update_threshold] answers "updated" for
    [t] if and only if [0 < t <= 50] or [t] is NaN, and [update_loan_amount]
    for [a] if and only if [0 < a <= 10000] or [a] is NaN. *)
Theorem range_guards_accept_window_and_nan (t a : float) (s : state) (x : session) :
  (fst (slack_bot.update_threshold t s) = Ok (slack_bot.Updated t) <->
   ((0 <? t)%float = true /\ (t <=? 50)%float = true) \/ ~ ordered t) /\
  (fst (update_loan_amount a x) = Ok (LoanUpdated a) <->
   ((0 <? a)%float = true /\ (a <=? 10000)%float = true) \/ ~ ordered a).
Proof.
  split.
  - rewrite <- (window_guard 0 50 t ordered_0 ordered_50). split.
    + unfold slack_bot.update_threshold.
      destruct (t <=? 0)%float; [ discriminate | ].
      destruct (fgt t 50); [ discriminate | ]. now split.
    + intros [H1 H2]. now apply slack_update_threshold_passes.
  - rewrite <- (window_guard 0 10000 a ordered_0 ordered_10000). split.
    + unfold update_loan_amount.
      destruct (a <=? 0)%float; [ discriminate | ].
      destruct (fgt a 10000); [ discriminate | ]. now split.
    + intros [H1 H2]. now rewrite update_loan_amount_passes.
Qed.

(** X15. [update_loan_amount] never raises and is all or nothing: either it
    answers "updated", the bot's maximal loan is the given amount, nothing
    else of the bot has changed and on a writable store the file is in step
    with the bot; or it answers one of its two rejections and bot, world and
    notes are exactly as before. *)
Theorem update_loan_amount_effect (amount : float) (x : session) :
  let r := update_loan_amount amount x in
  (fst r = Ok (LoanUpdated amount) /\
   bot (inner (snd r)) = set_max_loan_amount amount (bot (inner x)) /\
   (disk_writable (world (inner x)) = true -> in_sync (inner (snd r)))) \/
  ((fst r = Ok LoanMustBePositive \/ fst r = Ok LoanTooHigh) /\ snd r = x).
Proof.
  cbv zeta.
  destruct (amount <=? 0)%float eqn:H1;
    [ right; unfold update_loan_amount; rewrite H1; split; [ now left | reflexivity ] | ].
  destruct (fgt amount 10000) eqn:H2;
    [ right; unfold update_loan_amount; rewrite H1, H2; split; [ now right | reflexivity ] | ].
  left. rewrite (update_loan_amount_passes _ _ H1 H2). cbn [fst snd].
  split; [ reflexivity | ]. split.
  - rewrite after_post_bot. unfold after_update_max_loan. cbn [inner].
    now rewrite after_save_bot.
  - intros W. apply after_post_in_sync. unfold after_update_max_loan. cbn [inner].
    now apply after_save_in_sync.
Qed.

(** The setter of the bot itself has no guard: a negative loan is stored. *)
Example update_max_loan_minus_100 :
  let r := update_max_loan (-100) (mkSession five_units []) in
  fst r = Ok tt /\
  max_loan_amount (bot (inner (snd r))) = (-100)%float /\
  option_map cfg_max_loan_amount (config_file (world (inner (snd r))))
  = Some (-100)%float.
Proof. vm_compute. repeat split; reflexivity. Qed.


(** X17. The switch of the monitoring loop.  [stop_monitoring] never raises
    and leaves monitoring off; a second stop answers "already stopped" and
    changes nothing; and [monitor_pairs] then writes its starting line and
    ends at the first test of the loop condition, without scanning a pair.
    [start_monitoring] leaves monitoring on, and a second start changes
    nothing. *)
Theorem monitoring_switch (fuel : nat) (x : session) :
  (exists r x',
     stop_monitoring x = (Ok r, x') /\
     monitoring_enabled (bot (inner x')) = false /\
     stop_monitoring x' = (Ok AlreadyStopped, x') /\
     monitor_pairs (S fuel) (inner x') =
       (Ok Stopped, with_world (emit MonitoringStarting) (inner x'))) /\
  (exists r x',
     start_monitoring x = (Ok r, x') /\
     monitoring_enabled (bot (inner x')) = true /\
     start_monitoring x' = (Ok AlreadyMonitoring, x')).
Proof.
  assert (Hstop : forall y, monitoring_enabled (bot (inner y)) = false ->
                            stop_monitoring y = (Ok AlreadyStopped, y)).
  { intros [s ns] H. unfold stop_monitoring, mbind, M_bind, in_bot, gets.
    cbn [inner notes] in *. now rewrite H. }
  assert (Hstart : forall y, monitoring_enabled (bot (inner y)) = true ->
                             start_monitoring y = (Ok AlreadyMonitoring, y)).
  { intros [s ns] H. unfold start_monitoring, mbind, M_bind, in_bot, gets.
    cbn [inner notes] in *. now rewrite H. }
  assert (Hhalt : forall s, monitoring_enabled (bot s) = false ->
                            monitor_pairs (S fuel) s =
                            (Ok Stopped, with_world (emit MonitoringStarting) s)).
  { intros s H. unfold monitor_pairs, log, mbind, M_bind, modify. cbn [monitor_loop].
    unfold mbind, M_bind, gets. cbn [with_world bot]. now rewrite H. }
  assert (Hset : forall v text color,
             monitoring_enabled
               (bot (inner (after_post text color (after_toggle_monitoring v x)))) = v).
  { intros v text color. rewrite after_post_bot. unfold after_toggle_monitoring.
    cbn [inner]. now rewrite after_save_bot. }
  split.
  - destruct (monitoring_enabled (bot (inner x))) eqn:E.
    + exists StoppedMonitoring,
        (after_post MonitoringStopped "warning" (after_toggle_monitoring false x)).
      split.
      * destruct x as [s ns]. unfold stop_monitoring, mbind, M_bind, in_bot, gets.
        cbn [inner notes] in *. rewrite E. cbn [negb].
        now rewrite toggle_monitoring_run, post_run.
      * split; [ apply Hset | ]. split; [ apply Hstop, Hset | apply Hhalt, Hset ].
    + exists AlreadyStopped, x. pose proof (Hstop x E). auto.
  - destruct (monitoring_enabled (bot (inner x))) eqn:E.
    + exists AlreadyMonitoring, x. pose proof (Hstart x E). auto.
    + exists StartedMonitoring,
        (after_post MonitoringStarted "good" (after_toggle_monitoring true x)).
      split.
      * destruct x as [s ns]. unfold start_monitoring, mbind, M_bind, in_bot, gets.
        cbn [inner notes] in *. rewrite E.
        now rewrite toggle_monitoring_run, post_run.
      * split; [ apply Hset | apply Hstart, Hset ].
Qed.

End ControlSpec.

(** ** What a snapshot holds, and detector completeness *)

Module LoopSpec.
Import monitorbot PyFloatFacts SortedFacts DetectorFacts DetectorSpec MonadFacts MonitorSpec.

(** The price [get_prices] keeps for one exchange: the quote of its adapter,
    when the exchange has an adapter and the quote is above zero. *)
Definition kept_quote (w : World) (pair : TradingPair) (name : string) : option float :=
  if known_exchange name then
    match adapters w name (base pair) (quote pair) with
    | Quote p => if fgt p 0 then Some p else None
    | _ => None
    end
  else None.

(** A float above zero is not zero. *)
Lemma positive_truthy (p : float) : fgt p 0 = true -> truthy p = true.
Proof.
  unfold fgt, truthy. intros H. apply negb_true_iff, not_true_is_false. intros E.
  apply ltb_rank in H as (a & b & Ha & Hb & L).
  apply eqb_rank in E as (c & Hc & Hc').
  rewrite Ha in Hc'. rewrite Hb in Hc. injection Hc as <-. injection Hc' as <-.
  now apply lt3_irrefl in L.
Qed.

Lemma dict_get_set {V} (d : dict V) (k k' : string) (v : V) :
  dict_get (dict_set d k v) k' = if String.eqb k k' then Some v else dict_get d k'.
Proof.
  induction d as [|[k0 v0] d IH]; cbn; [ reflexivity | ].
  destruct (String.eqb_spec k0 k) as [-> | N]; cbn.
  - now destruct (String.eqb k k').
  - rewrite IH. destruct (String.eqb_spec k0 k') as [-> | N'];
      [ | reflexivity ].
    destruct (String.eqb_spec k k') as [-> | _]; [ contradiction | reflexivity ].
Qed.

Lemma dict_get_In {V} (d : dict V) (k : string) (v : V) :
  dict_get d k = Some v -> In k (dict_keys d).
Proof.
  induction d as [|[k0 v0] d IH]; cbn; [ discriminate | ].
  destruct (String.eqb_spec k0 k) as [-> | N]; auto.
Qed.

Lemma get_prices_step_run (pair : TradingPair) (name : string) (prices : dict float)
    (s : state) :
  exists s',
    get_prices_step pair name prices s =
    (Ok (match kept_quote (world s) pair name with
         | Some p => dict_set prices name p
         | None => prices
         end), s') /\
    adapters (world s') = adapters (world s).
Proof.
  unfold get_prices_step, kept_quote.
  destruct (known_exchange name); [ | exists s; split; reflexivity ].
  unfold try_except, mbind, M_bind, api_get_price.
  destruct (adapters (world s) name (base pair) (quote pair)) as [p | | e].
  - destruct (fgt p 0) eqn:Hp.
    + rewrite (positive_truthy _ Hp). exists s. split; reflexivity.
    + rewrite andb_false_r. exists s. split; reflexivity.
  - exists s. split; reflexivity.
  - eexists. split; reflexivity.
Qed.

Lemma kept_quote_adapters (w w' : World) (pair : TradingPair) (name : string) :
  adapters w' = adapters w -> kept_quote w' pair name = kept_quote w pair name.
Proof. intros H. unfold kept_quote. now rewrite H. Qed.

Lemma get_prices_fold (pair : TradingPair) (names : list string) :
  forall (prices : dict float) (s : state),
  exists prices' s',
    for_fold names prices (get_prices_step pair) s = (Ok prices', s') /\
    adapters (world s') = adapters (world s) /\
    forall k,
      dict_get prices' k =
      match (if existsb (String.eqb k) names
             then kept_quote (world s) pair k else None) with
      | Some p => Some p
      | None => dict_get prices k
      end.
Proof.
  induction names as [|n rest IH]; intros prices s.
  - exists prices, s. repeat split; reflexivity.
  - destruct (get_prices_step_run pair n prices s) as (s1 & Hstep & Ha1).
    destruct (IH (match kept_quote (world s) pair n with
                  | Some p => dict_set prices n p
                  | None => prices
                  end) s1) as (prices' & s' & Hrun & Ha & Hget).
    exists prices', s'. split; [ | split ].
    + cbn [for_fold]. unfold mbind, M_bind. now rewrite Hstep.
    + congruence.
    + intros k. rewrite Hget, (kept_quote_adapters _ _ _ _ Ha1). cbn [existsb].
      destruct (String.eqb_spec k n) as [-> | N]; cbn [orb].
      * destruct (kept_quote (world s) pair n) as [p|] eqn:Q;
          destruct (existsb (String.eqb n) rest); try reflexivity.
        now rewrite dict_get_set, String.eqb_refl.
      * assert (Hsame : dict_get (match kept_quote (world s) pair n with
                                  | Some p => dict_set prices n p
                                  | None => prices
                                  end) k = dict_get prices k).
        { destruct (kept_quote (world s) pair n); [ | reflexivity ].
          rewrite dict_get_set. destruct (String.eqb_spec n k); congruence. }
        now rewrite Hsame.
Qed.

(** X18. The snapshot [get_prices] returns holds, for every configured
    exchange with an adapter, the quote of that adapter when it is above
    zero, and nothing else: an exchange whose adapter gives nothing, raises,
    or quotes zero, a negative price or NaN has no entry. *)
Theorem get_prices_keeps_exactly_positive_quotes (pair : TradingPair) (s : state) :
  exists prices s',
    get_prices pair s = (Ok prices, s') /\
    forall name,
      dict_get prices name =
      if existsb (String.eqb name) (exchanges (bot s))
      then kept_quote (world s) pair name
      else None.
Proof.
  destruct (get_prices_fold pair (exchanges (bot s)) [] s)
    as (prices & s' & Hrun & _ & Hget).
  exists prices, s'. split.
  - unfold get_prices, mbind, M_bind, gets. exact Hrun.
  - intros name. rewrite Hget. cbn [dict_get].
    now destruct (if existsb _ _ then _ else _).
Qed.

(** A quote of zero, a negative quote, NaN and an exchange without adapter
    leave no entry. *)
Example get_prices_drops_bad_quotes :
  let quotes (exchange_name b q : string) : reply :=
    if String.eqb exchange_name "uniswap" then Quote 100
    else if String.eqb exchange_name "sushiswap" then Quote 0
    else if String.eqb exchange_name "curve" then Quote (-3)
    else if String.eqb exchange_name "balancer" then Quote nan
    else Quote 101 in
  fst (get_prices weth_usdc
         (mkState (mkBot ["uniswap"; "sushiswap"; "curve"; "balancer"; "kraken"]
                         [weth_usdc] 1 1000 true true None)
                  (mkWorld two_readings 0 quotes None true [])))
  = Ok [("uniswap"%string, 100%float)].
Proof. vm_compute. reflexivity. Qed.

(** X19. The detector is complete: for two exchanges of the snapshot, the
    route that buys on the first and sells on the second is among the
    returned opportunities if and only if the exchanges differ, both prices
    are above zero and (sell - buy) / buy * 100 is at least the threshold. *)
Theorem detector_reports_every_qualifying_route
    (s : state) (prices : dict float) (pair : TradingPair)
    (buy sell : string) (bp sp : float) :
  dict_get prices buy = Some bp ->
  dict_get prices sell = Some sp ->
  exists opportunities,
    fst (find_arbitrage_opportunities prices pair s) = Ok opportunities /\
    (In (buy, sell) (map route_of opportunities) <->
     buy <> sell /\ fgt bp 0 = true /\ fgt sp 0 = true /\
     fge ((sp - bp) / bp * 100)%float (threshold (bot s)) = true).
Proof.
  intros Hb Hs. rewrite find_run. eexists. split; [ reflexivity | ].
  assert (Hperm : Permutation
            (map route_of
               (sorted_reverse profit_percentage
                  (stamp (now (world s)) (ticks (world s))
                     (candidates prices pair (threshold (bot s))))))
            (List.filter (qualifies prices pair (threshold (bot s))) (routes prices))).
  { rewrite <- (stamp_routes prices pair (threshold (bot s))
                              (now (world s)) (ticks (world s))).
    apply Permutation_map, sorted_reverse_perm. }
  assert (Hroute : In (buy, sell) (routes prices)).
  { unfold routes. apply in_prod; eapply dict_get_In; eassumption. }
  assert (Hq : qualifies prices pair (threshold (bot s)) (buy, sell) = true <->
               buy <> sell /\ fgt bp 0 = true /\ fgt sp 0 = true /\
               fge ((sp - bp) / bp * 100)%float (threshold (bot s)) = true).
  { unfold qualifies, candidate. rewrite Hb, Hs.
    destruct (String.eqb_spec buy sell) as [E | N]; cbn [negb].
    - split; [ discriminate | intros (N & _); contradiction ].
    - destruct (fgt bp 0), (fgt sp 0); cbn [andb];
        try (split; [ discriminate | intros (_ & ? & ? & _); discriminate ]).
      destruct (fge _ _);
        [ split; auto | split; [ discriminate | intros (_ & _ & _ & ?); discriminate ] ]. }
  rewrite <- Hq. split.
  - intros H. apply (Permutation_in _ Hperm), List.filter_In in H. tauto.
  - intros H. apply (Permutation_in _ (Permutation_sym Hperm)), List.filter_In. tauto.
Qed.

Lemma detector_reports_every_qualifying_route_witness :
  dict_get snapshot_A "X" = Some 100%float /\
  dict_get snapshot_A "Y" = Some 102%float /\
  exists opportunities,
    fst (find_arbitrage_opportunities snapshot_A weth_usdc
           (mkState bot_one_percent idle_world)) = Ok opportunities /\
    (In ("X"%string, "Y"%string) (map route_of opportunities) <->
     "X"%string <> "Y"%string /\ fgt 100 0 = true /\ fgt 102 0 = true /\
     fge ((102 - 100) / 100 * 100)%float
         (threshold (bot (mkState bot_one_percent idle_world))) = true).
Proof.
  assert (Hb : dict_get snapshot_A "X" = Some 100%float) by reflexivity.
  assert (Hs : dict_get snapshot_A "Y" = Some 102%float) by reflexivity.
  split; [ exact Hb | split; [ exact Hs | ] ].
  exact (detector_reports_every_qualifying_route
           (mkState bot_one_percent idle_world) snapshot_A weth_usdc
           "X" "Y" 100%float 102%float Hb Hs).
Defined.

End LoopSpec.

(** ** Fees and gas of the flash-loan estimator *)

Module FeeSpec.
Import flashloan_bot PyDecimalFacts FlashloanSpec.

(** Dropping trailing zeros does not change the number. *)
Lemma strip_zeros_align (fuel : nat) :
  forall c e e0, e0 <= e ->
    e <= expo (strip_zeros fuel c e) /\
    align (strip_zeros fuel c e) e0 = c * 10 ^ (e - e0).
Proof.
  induction fuel as [|fuel IH]; intros c e e0 H; cbn [strip_zeros].
  - split; [ cbn; lia | reflexivity ].
  - destruct (Z.ltb_spec e 0) as [Hneg | _]; cbn [andb];
      [ | split; [ cbn; lia | reflexivity ] ].
    destruct (Z.eqb_spec (c mod 10) 0) as [Hmod | _];
      [ | split; [ cbn; lia | reflexivity ] ].
    destruct (IH (c / 10) (e + 1) e0 ltac:(lia)) as [He Ha]. split; [ lia | ].
    rewrite Ha. replace (e + 1 - e0) with (1 + (e - e0)) by lia.
    rewrite Z.pow_add_r by lia. change (10 ^ 1) with 10.
    pose proof (Z.div_mod c 10 ltac:(lia)) as Hc. rewrite Hmod in Hc.
    rewrite Hc at 2. ring.
Qed.

Lemma strip_zeros_compare (fuel : nat) (c e : Z) :
  dec_compare (strip_zeros fuel c e) (Dec c e) = Eq.
Proof.
  destruct (strip_zeros_align fuel c e e ltac:(lia)) as [He Ha].
  rewrite (dec_compare_at _ _ e) by (cbn; lia).
  rewrite Ha. unfold align. cbn [coef expo]. apply Z.compare_refl.
Qed.

Lemma strip_zeros_nonneg (fuel : nat) (c e : Z) :
  0 <= c -> 0 <= coef (strip_zeros fuel c e).
Proof.
  intros Hc. destruct (strip_zeros_align fuel c e e ltac:(lia)) as [He Ha].
  unfold align in Ha. rewrite Z.sub_diag, Z.mul_1_r in Ha.
  pose proof (scale_pos (strip_zeros fuel c e) e He) as Hp. nia.
Qed.

Lemma gas_cost_coef_nonneg (self : FlashLoanBot) :
  exists gas_cost, estimate_gas_cost self = Ok gas_cost /\ 0 <= coef gas_cost.
Proof.
  unfold estimate_gas_cost.
  destruct (contract_integration self) as [[[price|e]]|];
    cbn [get_gas_price mbind result_bind];
    try (eexists; split; [ reflexivity | cbn; lia ]).
  unfold fromWei_ether.
  destruct (Z.ltb_spec (price * 500000) 0) as [Hneg | Hpos]; cbn [orb];
    [ eexists; split; [ reflexivity | cbn; lia ] | ].
  destruct (2 ^ 256 - 1 <? price * 500000);
    [ eexists; split; [ reflexivity | cbn; lia ] | ].
  destruct (price * 500000 =? 0);
    eexists; (split; [ reflexivity | ]); [ cbn; lia | now apply strip_zeros_nonneg ].
Qed.

(** X21. The gas estimate never raises and is never negative: a node that
    answers with a price whose cost for 500000 gas lies in [0, 2^256 - 1]
    gives that cost in ether, and everything else (no integration, a call
    that raises, a negative or oversized price) gives the fallback 0.01. *)
Theorem estimate_gas_cost_nonnegative (self : FlashLoanBot) :
  exists gas_cost,
    estimate_gas_cost self = Ok gas_cost /\
    dec_leb zero gas_cost = true /\
    match contract_integration self with
    | Some (mkContract (Ok price)) =>
        if (0 <=? price * 500000) && (price * 500000 <=? 2 ^ 256 - 1)
        then dec_eqb gas_cost (Dec (price * 500000) (-18)) = true
        else gas_cost = fallback_gas_cost
    | _ => gas_cost = fallback_gas_cost
    end.
Proof.
  unfold estimate_gas_cost.
  destruct (contract_integration self) as [[[price|e]]|]; cbn [get_gas_price mbind result_bind];
    try (eexists; repeat split; reflexivity).
  unfold fromWei_ether.
  destruct (Z.ltb_spec (price * 500000) 0) as [Hneg | Hpos]; cbn [orb].
  - rewrite (proj2 (Z.leb_gt _ _) Hneg). cbn [andb].
    eexists; repeat split; reflexivity.
  - rewrite (proj2 (Z.leb_le _ _) Hpos). cbn [andb].
    destruct (Z.ltb_spec (2 ^ 256 - 1) (price * 500000)) as [Hbig | Hfit].
    + rewrite (proj2 (Z.leb_gt _ _) Hbig). eexists; repeat split; reflexivity.
    + rewrite (proj2 (Z.leb_le _ _) Hfit).
      destruct (Z.eqb_spec (price * 500000) 0) as [E | N].
      * eexists. split; [ reflexivity | ]. split; [ reflexivity | ].
        rewrite E. reflexivity.
      * eexists. split; [ reflexivity | ]. split.
        -- rewrite dec_nonneg_coef. apply Z.leb_le. now apply strip_zeros_nonneg.
        -- unfold dec_eqb. now rewrite strip_zeros_compare.
Qed.

(** X22. Where the three operations are exact, fees and gas only ever lower
    the estimate: for an opportunity with a numeric 'profit' entry (or
    none), profit and a non-negative Decimal loan amount below 10^9 with at
    most 8 decimal places, and a gas estimate below 10^9 with at most 18,
    the net profit is returned and is at most that profit. *)
Theorem net_profit_at_most_profit (self : FlashLoanBot) (opportunity : gmap string pyval)
    (profit loan_amount : decimal) :
  Decimal_of_str (get opportunity "profit" (Numeric (Dec 0 0))) = Ok profit ->
  plain 9 8 profit -> plain 9 8 loan_amount ->
  dec_leb zero loan_amount = true ->
  exists gas_cost,
    estimate_gas_cost self = Ok gas_cost /\
    (plain 9 18 gas_cost ->
     exists net_profit,
       net_profit_from self opportunity (ObjDecimal loan_amount) = Ok net_profit /\
       dec_leb net_profit profit = true).
Proof.
  intros Hp Bp Bl Hloan.
  destruct (gas_cost_coef_nonneg self) as (gas & Hg & Hgas).
  exists gas. split; [ exact Hg | ]. intros Bg.
  eexists. split; [ exact (net_profit_exact _ _ _ _ _ Hp Hg Bp Bl Bg) | ].
  rewrite dec_nonneg_coef in Hloan. apply Z.leb_le in Hloan.
  set (fee := exact_mul loan_amount (Dec 9 (-4))).
  assert (Hfee : 0 <= coef fee) by (unfold fee; cbn; lia).
  set (gross := exact_sub profit fee).
  set (net := exact_sub gross gas).
  assert (He1 : expo gross <= expo profit /\ expo gross <= expo fee)
    by (unfold gross; cbn [exact_sub expo]; lia).
  assert (He2 : expo net <= expo gross /\ expo net <= expo gas)
    by (unfold net; cbn [exact_sub expo]; lia).
  unfold dec_leb.
  rewrite (dec_compare_at net profit (expo net)) by lia.
  unfold net at 1. rewrite align_sub by lia.
  unfold gross at 1. rewrite align_sub by lia.
  pose proof (align_nonneg fee (expo net) Hfee).
  pose proof (align_nonneg gas (expo net) Hgas).
  destruct (Z.compare_spec
              (align profit (expo net) - align fee (expo net) - align gas (expo net))
              (align profit (expo net))); try reflexivity; lia.
Qed.

Lemma net_profit_at_most_profit_witness :
  Decimal_of_str (get scenario_C_flat "profit" (Numeric (Dec 0 0))) = Ok (Dec 500 (-1)) /\
  plain 9 8 (Dec 500 (-1)) /\ plain 9 8 (Dec 1000 0) /\
  dec_leb zero (Dec 1000 0) = true /\
  exists gas_cost,
    estimate_gas_cost connected = Ok gas_cost /\
    (plain 9 18 gas_cost ->
     exists net_profit,
       net_profit_from connected scenario_C_flat (ObjDecimal (Dec 1000 0)) = Ok net_profit /\
       dec_leb net_profit (Dec 500 (-1)) = true).
Proof.
  assert (Hp : Decimal_of_str (get scenario_C_flat "profit" (Numeric (Dec 0 0)))
               = Ok (Dec 500 (-1))) by reflexivity.
  assert (Bp : plain 9 8 (Dec 500 (-1))) by (apply plain_example; reflexivity).
  assert (Bl : plain 9 8 (Dec 1000 0)) by (apply plain_example; reflexivity).
  assert (Hl : dec_leb zero (Dec 1000 0) = true) by reflexivity.
  split; [ exact Hp | split; [ exact Bp | split; [ exact Bl | split; [ exact Hl | ] ] ] ].
  exact (net_profit_at_most_profit connected scenario_C_flat (Dec 500 (-1)) (Dec 1000 0)
           Hp Bp Bl Hl).
Defined.

(** The gas estimate of the connected bot lies in the exact range, and the
    net profit of scenario C with a flat profit is 47.1000. *)
Example scenario_C_flat_in_range :
  plain 9 18 (Dec 2 0) /\
  net_profit_from connected scenario_C_flat (ObjDecimal (Dec 1000 0))
  = Ok (Dec 471000 (-4)).
Proof. split; [ apply plain_example; reflexivity | vm_compute; reflexivity ]. Qed.

End FeeSpec.

(** ** What a cycle of the monitoring loop does, and where it catches *)

Module CycleSpec.
Import monitorbot PyFloatFacts SortedFacts DetectorFacts DetectorSpec MonitorSpec LoopSpec.

































End CycleSpec.
